(** * Client onboarding form: validation schema and submit lifecycle

    A shallow embedding of [src/app/page.js]: the zod schema [formSchema],
    the [onSubmit] handler of the [App] component and the part of the
    rendered form that gates it.  The JavaScript built-ins the code calls
    ([Date], [JSON.stringify], string length, the regular expression) and
    the zod combinators are modelled first; the program follows. *)

From Stdlib Require Import ZArith QArith List String Ascii Bool Lia.
From Stdlib Require DecimalString.
Import ListNotations.

Local Open Scope string_scope.
Local Open Scope list_scope.
Local Open Scope Z_scope.
Local Set Warnings "-register-all".

(* ================================================================== *)
(** ** JavaScript values *)
(* ================================================================== *)

Module JS.

(** A JavaScript string is a sequence of UTF-16 code units; [length]
    counts code units. *)
Definition jsstring := list Z.

Definition code (a : ascii) : Z := Z.of_N (N_of_ascii a).

(** A literal of the source, code unit by code unit (the literals of the
    source are ASCII). *)
Definition js (s : string) : jsstring := map code (list_ascii_of_string s).

Definition length (s : jsstring) : Z := Z.of_nat (List.length s).

Fixpoint jsstring_eqb (a b : jsstring) : bool :=
  match a, b with
  | [], [] => true
  | x :: a', y :: b' => (x =? y) && jsstring_eqb a' b'
  | _, _ => false
  end.

(** Numbers.  Finite doubles are modelled by exact rationals: the schema
    only tests integrality and compares with 100 and 1000000. *)
Inductive number :=
| NaN
| Infinity (negative : bool)
| Finite (q : Q).

Definition Number_isInteger (n : number) : bool :=
  match n with
  | Finite q => Qnum q mod Z.pos (Qden q) =? 0
  | _ => false
  end.

(** [a <= b] on numbers; any comparison with NaN is false. *)
Definition le (a b : number) : bool :=
  match a, b with
  | NaN, _ | _, NaN => false
  | Infinity true, _ => true
  | _, Infinity false => true
  | Infinity false, _ => false
  | _, Infinity true => false
  | Finite x, Finite y => Qle_bool x y
  end.

Definition ge (a b : number) : bool := le b a.

Definition of_Z (z : Z) : number := Finite (inject_Z z).

(** ToBoolean on a number: 0 and NaN are falsy. *)
Definition truthy_number (n : number) : bool :=
  match n with
  | NaN => false
  | Infinity _ => true
  | Finite q => negb (Qnum q =? 0)
  end.

Inductive value :=
| VUndefined
| VNull
| VBoolean (b : bool)
| VNumber (n : number)
| VString (s : jsstring)
| VArray (l : list value).

(** The character class [\s] of a regular expression without the [u]
    flag: WhiteSpace and LineTerminator code units. *)
Definition is_whitespace (c : Z) : bool :=
  existsb (Z.eqb c)
    [9; 10; 11; 12; 13; 32; 160; 5760; 8232; 8233; 8239; 8287; 12288; 65279]
  || ((8192 <=? c) && (c <=? 8202)).

Definition in_range (lo hi : ascii) (c : Z) : bool :=
  (code lo <=? c) && (c <=? code hi).

Definition is_char (a : ascii) (c : Z) : bool := c =? code a.

(** [/^[cls]+$/.test(s)]: one or more code units, all of the class,
    from the start of the input to its end (no [m] flag). *)
Definition test_class_plus (cls : Z -> bool) (s : jsstring) : bool :=
  match s with
  | [] => false
  | _ :: _ => forallb cls s
  end.

End JS.

Import JS.

(* ================================================================== *)
(** ** The zod combinators the schema uses *)
(* ================================================================== *)

Module Zod.

(** The three parse statuses of zod: valid, dirty (a value, with issues)
    and aborted.  Issues are kept as their messages. *)
Inductive ParseReturn (A : Type) :=
| OK (a : A)
| DIRTY (a : A) (issues : list string)
| INVALID (issues : list string).
Arguments OK {A} a.
Arguments DIRTY {A} a issues.
Arguments INVALID {A} issues.

Definition Schema (A : Type) := value -> ParseReturn A.

(** [safeParse(...).success] *)
Definition success {A} (r : ParseReturn A) : bool :=
  match r with OK _ => true | _ => false end.

Definition issues_of {A} (r : ParseReturn A) : list string :=
  match r with OK _ => [] | DIRTY _ i => i | INVALID i => i end.

(** A check yields the message of the issue it adds, if any. *)
Definition Check (A : Type) := A -> option string.

Definition run_checks {A} (cs : list (Check A)) (a : A) : list string :=
  flat_map (fun c => match c a with Some m => [m] | None => [] end) cs.

Definition with_issues {A} (a : A) (i : list string) : ParseReturn A :=
  match i with [] => OK a | _ :: _ => DIRTY a i end.

(** The name zod has for the type of a value. *)
Definition typeName (v : value) : string :=
  match v with
  | VUndefined => "undefined"
  | VNull => "null"
  | VBoolean _ => "boolean"
  | VNumber NaN => "nan"
  | VNumber _ => "number"
  | VString _ => "string"
  | VArray _ => "array"
  end.

(** The issue of a value of the wrong type. *)
Definition invalid_type {A} (expected : string) (v : value) : ParseReturn A :=
  match v with
  | VUndefined => INVALID ["Required"]
  | _ => INVALID [String.append "Expected "
                    (String.append expected
                       (String.append ", received " (typeName v)))]
  end.

(** [z.string()] followed by its checks, all of which run. *)
Definition string_ (cs : list (Check jsstring)) : Schema jsstring :=
  fun v => match v with
           | VString s => with_issues s (run_checks cs s)
           | _ => invalid_type "string" v
           end.

Definition min (n : Z) (msg : string) : Check jsstring :=
  fun s => if JS.length s <? n then Some msg else None.

Definition max (n : Z) (msg : string) : Check jsstring :=
  fun s => if n <? JS.length s then Some msg else None.

Definition regex (test : jsstring -> bool) (msg : string) : Check jsstring :=
  fun s => if test s then None else Some msg.

(** [z.boolean()] *)
Definition boolean : Schema bool :=
  fun v => match v with
           | VBoolean b => OK b
           | _ => invalid_type "boolean" v
           end.

(** [z.number().int(msg)]: NaN is not a number for zod; a number that is
    not an integer is dirty. *)
Definition number_int (msg : string) : Schema number :=
  fun v => match v with
           | VNumber NaN => invalid_type "number" v
           | VNumber n => if Number_isInteger n then OK n else DIRTY n [msg]
           | _ => invalid_type "number" v
           end.

(** [z.literal("")]; the message quotes the expected literal. *)
Definition literal_empty : Schema unit :=
  fun v => match v with
           | VString [] => OK tt
           | _ => INVALID [String.append "Invalid literal value, expected "
                             (String (ascii_of_nat 34)
                                (String (ascii_of_nat 34) EmptyString))]
           end.

(** [z.union([a, b])]: the first valid option wins; failing that the
    first dirty one; failing that the union is invalid. *)
Definition union {A B} (a : Schema A) (b : Schema B) : Schema (A + B) :=
  fun v =>
    match a v, b v with
    | OK x, _ => OK (inl x)
    | _, OK y => OK (inr y)
    | DIRTY x i, _ => DIRTY (inl x) i
    | _, DIRTY y i => DIRTY (inr y) i
    | INVALID _, INVALID _ => INVALID ["Invalid input"]
    end.

(** [.optional()]: [undefined] is accepted as it is. *)
Definition optional {A} (a : Schema A) : Schema (option A) :=
  fun v =>
    match v with
    | VUndefined => OK None
    | _ => match a v with
           | OK x => OK (Some x)
           | DIRTY x i => DIRTY (Some x) i
           | INVALID i => INVALID i
           end
    end.

(** [.refine(p, msg)]: runs on the value of the inner schema unless the
    inner parse aborted. *)
Definition refine {A} (a : Schema A) (p : A -> bool) (msg : string)
  : Schema A :=
  fun v =>
    match a v with
    | OK x => if p x then OK x else DIRTY x [msg]
    | DIRTY x i => if p x then DIRTY x i else DIRTY x (i ++ [msg])
    | INVALID i => INVALID i
    end.

(** [.transform(f)].  When the inner parse is not valid zod hands its
    result on untouched; the value of a failed parse is never read, and
    the model keeps the issues and maps the value only to stay typed. *)
Definition transform {A B} (a : Schema A) (f : A -> B) : Schema B :=
  fun v =>
    match a v with
    | OK x => OK (f x)
    | DIRTY x i => DIRTY (f x) i
    | INVALID i => INVALID i
    end.

(** Merging the element results of an array: every element is parsed
    and the issues of all of them are kept; one aborted element aborts
    the array. *)
Fixpoint mergeArray {A} (rs : list (ParseReturn A)) : ParseReturn (list A) :=
  match rs with
  | [] => OK []
  | r :: rs' =>
      match r, mergeArray rs' with
      | INVALID i, m => INVALID (i ++ issues_of m)
      | _, INVALID i => INVALID (issues_of r ++ i)
      | OK x, OK xs => OK (x :: xs)
      | OK x, DIRTY xs i => DIRTY (x :: xs) i
      | DIRTY x i, OK xs => DIRTY (x :: xs) i
      | DIRTY x i, DIRTY xs j => DIRTY (x :: xs) (i ++ j)
      end
  end.

(** [z.array(elem).min(n, msg)] *)
Definition array_min {A} (elem : Schema A) (n : Z) (msg : string)
  : Schema (list A) :=
  fun v =>
    match v with
    | VArray l =>
        let short := if Z.of_nat (List.length l) <? n then [msg] else [] in
        match mergeArray (map elem l) with
        | OK xs => with_issues xs short
        | DIRTY xs i => DIRTY xs (short ++ i)
        | INVALID i => INVALID (short ++ i)
        end
    | _ => invalid_type "array" v
    end.

End Zod.

Import Zod.

(* ================================================================== *)
(** ** Date: time values, parsing, [setHours], [toISOString] *)
(* ================================================================== *)

Module Date.

(** A Date holds a time value, milliseconds since the epoch in UTC, or
    is invalid (NaN), written [None]. *)
Definition t := option Z.

Definition msPerDay : Z := 86400000.
Definition msPerHour : Z := 3600000.
Definition msPerMinute : Z := 60000.
Definition msPerSecond : Z := 1000.

Definition Day (tv : Z) : Z := tv / msPerDay.
Definition TimeWithinDay (tv : Z) : Z := tv mod msPerDay.

Definition DayFromYear (y : Z) : Z :=
  365 * (y - 1970) + (y - 1969) / 4 - (y - 1901) / 100 + (y - 1601) / 400.

Definition InLeapYear (y : Z) : bool :=
  ((y mod 4 =? 0) && negb (y mod 100 =? 0)) || (y mod 400 =? 0).

Definition DaysInYear (y : Z) : Z := if InLeapYear y then 366 else 365.

(** The largest year whose first day is not after day [d]: an estimate
    from the mean year length, corrected by at most one. *)
Definition YearFromDay (d : Z) : Z :=
  let y := 1970 + d * 400 / 146097 in
  if d <? DayFromYear y then y - 1
  else if DayFromYear (y + 1) <=? d then y + 1
  else y.

Definition YearFromTime (tv : Z) : Z := YearFromDay (Day tv).

(** Days of the year before month [m] (0 = January). *)
Definition DaysBeforeMonth (leap : bool) (m : Z) : Z :=
  let l := if leap then 1 else 0 in
  if m <=? 0 then 0
  else if m =? 1 then 31
  else if m =? 2 then 59 + l
  else if m =? 3 then 90 + l
  else if m =? 4 then 120 + l
  else if m =? 5 then 151 + l
  else if m =? 6 then 181 + l
  else if m =? 7 then 212 + l
  else if m =? 8 then 243 + l
  else if m =? 9 then 273 + l
  else if m =? 10 then 304 + l
  else if m =? 11 then 334 + l
  else 365 + l.

Definition DayWithinYear (tv : Z) : Z :=
  Day tv - DayFromYear (YearFromTime tv).

Definition MonthFromDayWithinYear (leap : bool) (d : Z) : Z :=
  if d <? DaysBeforeMonth leap 1 then 0
  else if d <? DaysBeforeMonth leap 2 then 1
  else if d <? DaysBeforeMonth leap 3 then 2
  else if d <? DaysBeforeMonth leap 4 then 3
  else if d <? DaysBeforeMonth leap 5 then 4
  else if d <? DaysBeforeMonth leap 6 then 5
  else if d <? DaysBeforeMonth leap 7 then 6
  else if d <? DaysBeforeMonth leap 8 then 7
  else if d <? DaysBeforeMonth leap 9 then 8
  else if d <? DaysBeforeMonth leap 10 then 9
  else if d <? DaysBeforeMonth leap 11 then 10
  else 11.

(** 0 = January *)
Definition MonthFromTime (tv : Z) : Z :=
  MonthFromDayWithinYear (InLeapYear (YearFromTime tv)) (DayWithinYear tv).

(** 1 .. 31 *)
Definition DateFromTime (tv : Z) : Z :=
  let leap := InLeapYear (YearFromTime tv) in
  DayWithinYear tv - DaysBeforeMonth leap (MonthFromTime tv) + 1.

Definition HourFromTime (tv : Z) : Z := (tv / msPerHour) mod 24.
Definition MinFromTime (tv : Z) : Z := (tv / msPerMinute) mod 60.
Definition SecFromTime (tv : Z) : Z := (tv / msPerSecond) mod 60.
Definition msFromTime (tv : Z) : Z := tv mod msPerSecond.

Definition DaysInMonth (y m : Z) : Z :=
  DaysBeforeMonth (InLeapYear y) (m + 1) - DaysBeforeMonth (InLeapYear y) m.

(** [MakeDay] for a year, a month 0..11 and a day of the month. *)
Definition MakeDay (y m d : Z) : Z :=
  DayFromYear y + DaysBeforeMonth (InLeapYear y) m + d - 1.

Definition MakeDate (day time : Z) : Z := day * msPerDay + time.

Definition TimeClip (tv : Z) : t :=
  if Z.abs tv <=? 8640000000000000 then Some tv else None.

(** *** Parsing *)

Definition digit (c : Z) : option Z :=
  if (48 <=? c) && (c <=? 57) then Some (c - 48) else None.

(** The value of a run of decimal digits, most significant first. *)
Fixpoint digits_from (acc : Z) (s : jsstring) : option Z :=
  match s with
  | [] => Some acc
  | c :: s' => match digit c with
               | Some d => digits_from (10 * acc + d) s'
               | None => None
               end
  end.

Definition number_of (s : jsstring) : option Z :=
  match s with [] => None | _ => digits_from 0 s end.

Definition hyphen : Z := 45.
Definition plus : Z := 43.

(** The year of the date-time string format: [YYYY], or the expanded
    form, a sign and six digits ([-000000] excluded).  Returns the year
    and the rest of the string. *)
Definition parse_year (s : jsstring) : option (Z * jsstring) :=
  match s with
  | sg :: a :: b :: c :: d :: e :: f :: rest =>
      if (sg =? plus) || (sg =? hyphen) then
        match number_of [a; b; c; d; e; f] with
        | Some y =>
            if sg =? plus then Some (y, rest)
            else if y =? 0 then None
            else Some (- y, rest)
        | None => None
        end
      else
        match number_of [sg; a; b; c] with
        | Some y => Some (y, d :: e :: f :: rest)
        | None => None
        end
  | a :: b :: c :: d :: rest =>
      match number_of [a; b; c; d] with
      | Some y => Some (y, rest)
      | None => None
      end
  | _ => None
  end.

(** A day from 29 to 31 that the month does not have.  Engines differ
    on it: V8 rolls it over into the next month, others give an invalid
    Date. *)
Definition past_month_end (y m d : Z) : bool :=
  (1 <=? m) && (m <=? 12) && (DaysInMonth y (m - 1) <? d) && (d <=? 31).

(** The date-only forms of the date-time string format, [YYYY],
    [YYYY-MM] and [YYYY-MM-DD], which are read as UTC.  [None]: the
    string is not of a date-only form, or its day is past the end of its
    month, and the engine decides.  [Some None]: it is of a date-only
    form with an element out of range, and the Date is invalid. *)
Definition parse_date_only (s : jsstring) : option t :=
  match parse_year s with
  | None => None
  | Some (y, []) => Some (TimeClip (MakeDate (MakeDay y 0 1) 0))
  | Some (y, [h1; m1; m2]) =>
      if h1 =? hyphen then
        match number_of [m1; m2] with
        | Some m =>
            Some (if (1 <=? m) && (m <=? 12)
                  then TimeClip (MakeDate (MakeDay y (m - 1) 1) 0)
                  else None)
        | None => None
        end
      else None
  | Some (y, [h1; m1; m2; h2; d1; d2]) =>
      if (h1 =? hyphen) && (h2 =? hyphen) then
        match number_of [m1; m2], number_of [d1; d2] with
        | Some m, Some d =>
            if past_month_end y m d then None
            else
              Some (if (1 <=? m) && (m <=? 12) && (1 <=? d)
                       && (d <=? DaysInMonth y (m - 1))
                    then TimeClip (MakeDate (MakeDay y (m - 1) d) 0)
                    else None)
        | _, _ => None
        end
      else None
  | Some _ => None
  end.

(** [new Date(s)] for a string.  What [parse_date_only] leaves open
    (the forms with a time, a day past the end of its month, and whatever
    else the engine accepts) is read by [other], which the host
    supplies. *)
Definition parse (other : jsstring -> t) (s : jsstring) : t :=
  match parse_date_only s with
  | Some d => d
  | None => match other s with
            | Some tv => TimeClip tv
            | None => None
            end
  end.

(** *** setHours(0, 0, 0, 0) *)

(** The local time zone is a fixed offset [tza] from UTC, in
    milliseconds (no daylight-saving change within the day).  The result
    is the new time value, the start of the local day of [tv]. *)
Definition setHours0 (tza : Z) (tv : Z) : t :=
  let local := tv + tza in
  TimeClip (MakeDate (Day local) 0 - tza).

(** *** toISOString *)

(** The decimal digits of an integer. *)
Definition decimal (n : Z) : jsstring :=
  js (DecimalString.NilZero.string_of_int (Z.to_int n)).

(** [String(n).padStart(width, "0")] *)
Definition pad (width : nat) (n : Z) : jsstring :=
  let s := decimal n in
  repeat 48 (width - List.length s) ++ s.

Definition year_string (y : Z) : jsstring :=
  if (0 <=? y) && (y <=? 9999) then pad 4 y
  else (if 0 <=? y then plus else hyphen) :: pad 6 (Z.abs y).

(** [None] stands for the RangeError thrown on an invalid Date. *)
Definition toISOString (d : t) : option jsstring :=
  match d with
  | None => None
  | Some tv =>
      Some (year_string (YearFromTime tv) ++ [hyphen]
            ++ pad 2 (MonthFromTime tv + 1) ++ [hyphen]
            ++ pad 2 (DateFromTime tv) ++ js "T"
            ++ pad 2 (HourFromTime tv) ++ js ":"
            ++ pad 2 (MinFromTime tv) ++ js ":"
            ++ pad 2 (SecFromTime tv) ++ js "."
            ++ pad 3 (msFromTime tv) ++ js "Z")
  end.

(** [a >= b] on Dates compares the time values; false when either is
    invalid. *)
Definition ge (a b : t) : bool :=
  match a, b with
  | Some x, Some y => y <=? x
  | _, _ => false
  end.

End Date.

(** [s.split(sep)[0]] for a separator of one code unit: what precedes
    its first occurrence, or all of [s]. *)
Fixpoint split_0 (sep : Z) (s : jsstring) : jsstring :=
  match s with
  | [] => []
  | c :: s' => if c =? sep then [] else c :: split_0 sep s'
  end.

(* ================================================================== *)
(** ** The host: what the page reads from its surroundings *)
(* ================================================================== *)

Record Host := {
  (** [process.env.NEXT_PUBLIC_ONBOARD_URL]; [None] is [undefined] *)
  NEXT_PUBLIC_ONBOARD_URL : option jsstring;
  (** offset of local time from UTC, in milliseconds *)
  LocalTZA : Z;
  (** how the engine reads the date strings [Date.parse_date_only]
      leaves to it: those not of a date-only form, and those whose day
      is past the end of its month *)
  Date_parse_other : jsstring -> Date.t;
  (** the regular expression behind zod's [.email()] *)
  email_regex : jsstring -> bool;
  (** [decodeURIComponent]; [None] when it throws URIError *)
  decodeURIComponent : jsstring -> option jsstring
}.

(* ================================================================== *)
(** ** formSchema *)
(* ================================================================== *)

(** The values of the form as the resolver receives them. *)
Module Form.
Record t := {
  fullName : value;
  email : value;
  companyName : value;
  services : value;
  budgetUsd : value;
  projectStartDate : value;
  acceptTerms : value
}.
End Form.

(** The output of the schema, and the shape of the payload. *)
Module Data.
Record t := {
  fullName : jsstring;
  email : jsstring;
  companyName : jsstring;
  services : list jsstring;
  (** [None] is [undefined] *)
  budgetUsd : option number;
  projectStartDate : jsstring;
  acceptTerms : bool
}.
End Data.

(** [[a-zA-Z\s'-]] *)
Definition fullName_class (c : Z) : bool :=
  in_range "a" "z" c || in_range "A" "Z" c || is_whitespace c
  || is_char "'" c || is_char "-" c.

Definition fullName_schema : Schema jsstring :=
  string_
    [ min 2 "Full name must be at least 2 characters.";
      max 80 "Full name cannot exceed 80 characters.";
      regex (test_class_plus fullName_class)
        "Full name must only contain letters, spaces, hyphens, or apostrophes." ].

Definition email_schema (h : Host) : Schema jsstring :=
  string_
    [ regex (email_regex h) "Please enter a valid email address.";
      min 1 "Email is required." ].

Definition companyName_schema : Schema jsstring :=
  string_
    [ min 2 "Company name must be at least 2 characters.";
      max 100 "Company name cannot exceed 100 characters." ].

Definition services_schema : Schema (list jsstring) :=
  array_min (string_ []) 1 "Please select at least one service.".

(** [val === "" || (val >= 100 && val <= 1000000)] on a value of the
    optional union: a number, [""] or [undefined].  [undefined >= 100]
    is false, [undefined] being NaN as a number. *)
Definition budget_in_range (val : option (number + unit)) : bool :=
  match val with
  | Some (inr tt) => true
  | Some (inl n) => JS.ge n (of_Z 100) && JS.le n (of_Z 1000000)
  | None => false
  end.

(** [val === "" ? undefined : Number(val)] *)
Definition budget_transform (val : option (number + unit)) : option number :=
  match val with
  | Some (inr tt) => None
  | Some (inl n) => Some n
  | None => Some NaN
  end.

Definition budgetUsd_schema : Schema (option number) :=
  transform
    (refine
       (optional (union (number_int "Budget must be an integer.")
                        literal_empty))
       budget_in_range
       "Budget must be between 100 and 1,000,000 USD.")
    budget_transform.

(** [new Date(new Date().setHours(0, 0, 0, 0))], [now] being the time
    value of [new Date()]. *)
Definition start_of_today (h : Host) (now : Z) : Date.t :=
  match Date.setHours0 (LocalTZA h) now with
  | Some tv => Date.TimeClip tv
  | None => None
  end.

Definition today_or_later (h : Host) (now : Z) (date : jsstring) : bool :=
  Date.ge (Date.parse (Date_parse_other h) date) (start_of_today h now).

Definition projectStartDate_schema (h : Host) (now : Z) : Schema jsstring :=
  refine
    (string_ [ min 1 "Project start date is required." ])
    (today_or_later h now)
    "Project start date must be today or later.".

Definition acceptTerms_schema : Schema bool :=
  refine boolean (fun val => val) "You must accept the terms and conditions.".

(** Merging the fields of an object: every field is parsed and all the
    issues are kept; the object is valid when every field is. *)
Definition field {A B} (f : ParseReturn (A -> B)) (x : ParseReturn A)
  : ParseReturn B :=
  match f, x with
  | OK g, OK a => OK (g a)
  | INVALID i, _ => INVALID (i ++ issues_of x)
  | _, INVALID j => INVALID (issues_of f ++ j)
  | OK g, DIRTY a j => DIRTY (g a) j
  | DIRTY g i, OK a => DIRTY (g a) i
  | DIRTY g i, DIRTY a j => DIRTY (g a) (i ++ j)
  end.

Definition formSchema (h : Host) (now : Z) (v : Form.t) : ParseReturn Data.t :=
  field (field (field (field (field (field (field
    (OK Data.Build_t)
    (fullName_schema (Form.fullName v)))
    (email_schema h (Form.email v)))
    (companyName_schema (Form.companyName v)))
    (services_schema (Form.services v)))
    (budgetUsd_schema (Form.budgetUsd v)))
    (projectStartDate_schema h now (Form.projectStartDate v)))
    (acceptTerms_schema (Form.acceptTerms v)).

Definition SERVICE_OPTIONS : list jsstring :=
  [ js "UI/UX"; js "Branding"; js "Web Dev"; js "Mobile App" ].

(* ================================================================== *)
(** ** JSON.stringify and fetch *)
(* ================================================================== *)

(** The structure of a JSON text. *)
Inductive json :=
| JNull
| JBool (b : bool)
| JNumber (q : Q)
| JString (s : jsstring)
| JArray (l : list json)
| JObject (members : list (string * json)).

(** A number that is not finite is written [null]. *)
Definition json_of_number (n : number) : json :=
  match n with
  | Finite q => JNumber q
  | _ => JNull
  end.

(** [JSON.stringify(payload)]: the own properties in insertion order,
    a property whose value is [undefined] left out. *)
Definition JSON_stringify (p : Data.t) : json :=
  JObject
    ([ ("fullName", JString (Data.fullName p));
       ("email", JString (Data.email p));
       ("companyName", JString (Data.companyName p));
       ("services", JArray (map JString (Data.services p))) ]
     ++ match Data.budgetUsd p with
        | Some n => [ ("budgetUsd", json_of_number n) ]
        | None => []
        end
     ++ [ ("projectStartDate", JString (Data.projectStartDate p));
          ("acceptTerms", JBool (Data.acceptTerms p)) ]).

Module Request.
Record t := {
  url : jsstring;
  method : string;
  headers : list (string * string);
  body : json
}.
End Request.

Module Response.
Record t := {
  status : Z;
  body : json
}.

(** [response.ok] *)
Definition ok (r : t) : bool := (200 <=? status r) && (status r <=? 299).
End Response.

(** How the promise returned by [fetch] settles. *)
Inductive settled :=
| Fulfilled (response : Response.t)
| Rejected.

(** The decimal text of an integer, as a template literal prints it. *)
Definition Number_toString (n : Z) : string :=
  DecimalString.NilZero.string_of_int (Z.to_int n).

(** [s.includes(sub)] on messages *)
Definition contains (sub s : string) : Prop :=
  exists pre post, s = String.append pre (String.append sub post).

(* ================================================================== *)
(** ** App *)
(* ================================================================== *)

Module App.

Record State := {
  isSubmitting : bool;
  isSubmitted : bool;
  (** [None] is [null] *)
  submissionError : option string;
  submittedData : option Data.t;
  (** the values react-hook-form holds for the fields *)
  values : Form.t;
  (** [formState.errors], as the messages of the last validation *)
  errors : list string
}.

Definition defaultValues : Form.t :=
  {| Form.fullName := VString [];
     Form.email := VString [];
     Form.companyName := VString [];
     Form.services := VArray [];
     Form.budgetUsd := VString [];
     Form.projectStartDate := VString [];
     Form.acceptTerms := VBoolean false |}.

Definition initial : State :=
  {| isSubmitting := false;
     isSubmitted := false;
     submissionError := None;
     submittedData := None;
     values := defaultValues;
     errors := [] |}.

Definition setIsSubmitting (b : bool) (s : State) : State :=
  {| isSubmitting := b;
     isSubmitted := isSubmitted s;
     submissionError := submissionError s;
     submittedData := submittedData s;
     values := values s;
     errors := errors s |}.

Definition setIsSubmitted (b : bool) (s : State) : State :=
  {| isSubmitting := isSubmitting s;
     isSubmitted := b;
     submissionError := submissionError s;
     submittedData := submittedData s;
     values := values s;
     errors := errors s |}.

Definition setSubmissionError (e : option string) (s : State) : State :=
  {| isSubmitting := isSubmitting s;
     isSubmitted := isSubmitted s;
     submissionError := e;
     submittedData := submittedData s;
     values := values s;
     errors := errors s |}.

Definition setSubmittedData (d : option Data.t) (s : State) : State :=
  {| isSubmitting := isSubmitting s;
     isSubmitted := isSubmitted s;
     submissionError := submissionError s;
     submittedData := d;
     values := values s;
     errors := errors s |}.

Definition setValues (v : Form.t) (s : State) : State :=
  {| isSubmitting := isSubmitting s;
     isSubmitted := isSubmitted s;
     submissionError := submissionError s;
     submittedData := submittedData s;
     values := v;
     errors := errors s |}.

Definition setErrors (e : list string) (s : State) : State :=
  {| isSubmitting := isSubmitting s;
     isSubmitted := isSubmitted s;
     submissionError := submissionError s;
     submittedData := submittedData s;
     values := values s;
     errors := e |}.

(** [reset()]: the fields go back to [defaultValues], the errors are
    cleared. *)
Definition reset (s : State) : State := setErrors [] (setValues defaultValues s).

(** [setValue("services", v)] *)
Definition setServices (v : value) (s : State) : State :=
  let f := values s in
  setValues
    {| Form.fullName := Form.fullName f;
       Form.email := Form.email f;
       Form.companyName := Form.companyName f;
       Form.services := v;
       Form.budgetUsd := Form.budgetUsd f;
       Form.projectStartDate := Form.projectStartDate f;
       Form.acceptTerms := Form.acceptTerms f |} s.

Definition includes (l : list jsstring) (x : jsstring) : bool :=
  existsb (jsstring_eqb x) l.

(** The effect run at mount: [serviceParam] is what
    [urlParams.get("service")] returned, [None] also when there is no
    query string.  [None] as a result: [decodeURIComponent] threw, which
    nothing in the effect catches, and the page fails to render. *)
Definition prefill (h : Host) (serviceParam : option jsstring) (s : State)
  : option State :=
  match serviceParam with
  | None | Some [] => Some s
  | Some p =>
      match decodeURIComponent h p with
      | Some d => if includes SERVICE_OPTIONS d
                  then Some (setServices (VArray [VString d]) s)
                  else Some s
      | None => None
      end
  end.

(** The payload built in [onSubmit]; [None] when [toISOString] throws. *)
Definition make_payload (h : Host) (data : Data.t) : option Data.t :=
  let budget :=
    match Data.budgetUsd data with
    | Some n => if truthy_number n then Some n else None
    | None => None
    end in
  match Date.toISOString
          (Date.parse (Date_parse_other h) (Data.projectStartDate data)) with
  | Some iso =>
      Some {| Data.fullName := Data.fullName data;
              Data.email := Data.email data;
              Data.companyName := Data.companyName data;
              Data.services := Data.services data;
              Data.budgetUsd := budget;
              Data.projectStartDate := split_0 (code "T") iso;
              Data.acceptTerms := Data.acceptTerms data |}
  | None => None
  end.

Definition config_error : string :=
  "API URL is not configured. Please set the NEXT_PUBLIC_ONBOARD_URL environment variable.".

Definition network_error : string :=
  "Network Error: Could not connect to the API.".

Definition api_error (status : Z) : string :=
  String.append "API Error: "
    (String.append (Number_toString status) " - An error occurred.").

Definition post (apiUrl : jsstring) (payload : Data.t) : Request.t :=
  {| Request.url := apiUrl;
     Request.method := "POST";
     Request.headers := [ ("Content-Type", "application/json") ];
     Request.body := JSON_stringify payload |}.

(** [onSubmit] up to [await fetch(...)]: the new state and, when the
    handler is suspended on a request, that request with the payload the
    rest of the handler holds. *)
Definition onSubmit_begin (h : Host) (data : Data.t) (s : State)
  : State * option (Request.t * Data.t) :=
  let s := setIsSubmitting true s in
  let s := setSubmissionError None s in
  let s := setIsSubmitted false s in
  match NEXT_PUBLIC_ONBOARD_URL h with
  | None | Some [] =>
      (setIsSubmitting false (setSubmissionError (Some config_error) s), None)
  | Some apiUrl =>
      match make_payload h data with
      | Some payload => (s, Some (post apiUrl payload, payload))
      | None =>
          (setIsSubmitting false (setSubmissionError (Some network_error) s),
           None)
      end
  end.

(** [onSubmit] from the point where the promise of [fetch] settles. *)
Definition onSubmit_resume (outcome : settled) (payload : Data.t) (s : State)
  : State :=
  let s :=
    match outcome with
    | Fulfilled response =>
        if Response.ok response
        then reset (setSubmittedData (Some payload) (setIsSubmitted true s))
        else setSubmissionError
               (Some (api_error (Response.status response))) s
    | Rejected => setSubmissionError (Some network_error) s
    end in
  setIsSubmitting false s.

(** One whole call of [onSubmit], the network answering [fetch]: the
    final state and the requests issued. *)
Definition onSubmit (h : Host) (fetch : Request.t -> settled)
  (data : Data.t) (s : State) : State * list Request.t :=
  match onSubmit_begin h data s with
  | (s', Some (req, payload)) => (onSubmit_resume (fetch req) payload s', [req])
  | (s', None) => (s', [])
  end.

(** [handleSubmit(onSubmit)]: the resolver runs the schema on the held
    values; [onSubmit] is called with its output only when it is valid. *)
Definition handleSubmit (h : Host) (now : Z) (s : State)
  : State * option (Request.t * Data.t) :=
  match formSchema h now (values s) with
  | OK data => onSubmit_begin h data (setErrors [] s)
  | r => (setErrors (issues_of r) s, None)
  end.

End App.

(* ================================================================== *)
(** ** The page as a transition system *)
(* ================================================================== *)

Module Page.
Import App.

(** What the user can type or tick in the inputs registered with
    react-hook-form; the budget input is read as a number. *)
Inductive input :=
| InFullName (s : jsstring)
| InEmail (s : jsstring)
| InCompanyName (s : jsstring)
| InBudgetUsd (n : number)
| InProjectStartDate (s : jsstring)
| InAcceptTerms (b : bool).

Definition change (i : input) (f : Form.t) : Form.t :=
  {| Form.fullName :=
       match i with InFullName s => VString s | _ => Form.fullName f end;
     Form.email :=
       match i with InEmail s => VString s | _ => Form.email f end;
     Form.companyName :=
       match i with InCompanyName s => VString s | _ => Form.companyName f end;
     Form.services := Form.services f;
     Form.budgetUsd :=
       match i with InBudgetUsd n => VNumber n | _ => Form.budgetUsd f end;
     Form.projectStartDate :=
       match i with
       | InProjectStartDate s => VString s
       | _ => Form.projectStartDate f
       end;
     Form.acceptTerms :=
       match i with InAcceptTerms b => VBoolean b | _ => Form.acceptTerms f end
  |}.

(** [service !== label] *)
Definition differs (label : jsstring) (service : value) : bool :=
  match service with
  | VString s => negb (jsstring_eqb s label)
  | _ => true
  end.

(** [onChange] of a [ServiceCheckbox] *)
Definition newServices (label : jsstring) (checked : bool) (services : value)
  : value :=
  match services with
  | VArray l =>
      if checked then VArray (l ++ [VString label])
      else VArray (filter (differs label) l)
  | v => v
  end.

(** The component state together with the calls of [onSubmit] suspended
    on [fetch].  [sent] and [attempts] are bookkeeping: every request
    issued so far, and the number of calls of [onSubmit]. *)
Record Sys := {
  ui : State;
  pending : list (Request.t * Data.t);
  sent : list Request.t;
  attempts : nat
}.

Inductive event :=
| Change (i : input)
| ToggleService (label : jsstring) (checked : bool)
| Submit (now : Z)
| Settle (k : nat) (outcome : settled).

Fixpoint remove_nth {A} (k : nat) (l : list A) : list A :=
  match k, l with
  | _, [] => []
  | O, _ :: l' => l'
  | S k', x :: l' => x :: remove_nth k' l'
  end.

(** The page once mounted; [None] when the effect run at mount
    throws. *)
Definition init (h : Host) (serviceParam : option jsstring) : option Sys :=
  match prefill h serviceParam initial with
  | Some s => Some {| ui := s;
                      pending := [];
                      sent := [];
                      attempts := 0 |}
  | None => None
  end.

(** One event.  [None]: the page does not offer it.  The inputs and the
    submit button carry [disabled={isSubmitting}]; the service
    checkboxes, one per option, do not. *)
Definition step (h : Host) (sys : Sys) (ev : event) : option Sys :=
  match ev with
  | Change i =>
      if isSubmitting (ui sys) then None
      else Some {| ui := setValues (change i (values (ui sys))) (ui sys);
                   pending := pending sys;
                   sent := sent sys;
                   attempts := attempts sys |}
  | ToggleService label checked =>
      if includes SERVICE_OPTIONS label
      then Some {| ui := setServices
                           (newServices label checked
                              (Form.services (values (ui sys)))) (ui sys);
                   pending := pending sys;
                   sent := sent sys;
                   attempts := attempts sys |}
      else None
  | Submit now =>
      if isSubmitting (ui sys) then None
      else
        let called := success (formSchema h now (values (ui sys))) in
        match handleSubmit h now (ui sys) with
        | (s', Some (req, payload)) =>
            Some {| ui := s';
                    pending := pending sys ++ [(req, payload)];
                    sent := sent sys ++ [req];
                    attempts := S (attempts sys) |}
        | (s', None) =>
            Some {| ui := s';
                    pending := pending sys;
                    sent := sent sys;
                    attempts := if called then S (attempts sys)
                                else attempts sys |}
        end
  | Settle k outcome =>
      match nth_error (pending sys) k with
      | Some (_, payload) =>
          Some {| ui := onSubmit_resume outcome payload (ui sys);
                  pending := remove_nth k (pending sys);
                  sent := sent sys;
                  attempts := attempts sys |}
      | None => None
      end
  end.

Inductive reachable (h : Host) : Sys -> Prop :=
| reachable_init : forall serviceParam sys,
    init h serviceParam = Some sys -> reachable h sys
| reachable_step : forall sys ev sys',
    reachable h sys -> step h sys ev = Some sys' -> reachable h sys'.

End Page.

(* ================================================================== *)
(** ** Vocabulary of the statements *)
(* ================================================================== *)

(** A letter of the ASCII alphabet: [a] to [z] or [A] to [Z]. *)
Definition ascii_letter (c : Z) : Prop := 97 <= c <= 122 \/ 65 <= c <= 90.

(** White space: tab, line feed, vertical tab, form feed, carriage
    return, space, no-break space, the Ogham space mark, the spaces
    U+2000 to U+200A, the line and paragraph separators, the narrow
    no-break space, the medium mathematical space, the ideographic space
    and the byte order mark. *)
Definition white_space (c : Z) : Prop :=
  9 <= c <= 13 \/ c = 32 \/ c = 160 \/ c = 5760 \/ 8192 <= c <= 8202
  \/ c = 8232 \/ c = 8233 \/ c = 8239 \/ c = 8287 \/ c = 12288
  \/ c = 65279.

Definition hyphen (c : Z) : Prop := c = 45.
Definition apostrophe (c : Z) : Prop := c = 39.

Definition fullName_char (c : Z) : Prop :=
  ascii_letter c \/ white_space c \/ hyphen c \/ apostrophe c.

(** The words of the rule read plainly: a letter, of the ASCII alphabet
    or an accented one of Latin-1 (U+00C0 to U+00FF but the two signs
    among them), to go no further; the space U+0020; a hyphen; an
    apostrophe. *)
Definition plain_letter (c : Z) : Prop :=
  ascii_letter c \/ (192 <= c <= 255 /\ c <> 215 /\ c <> 247).

Definition plain_fullName_char (c : Z) : Prop :=
  plain_letter c \/ c = 32 \/ hyphen c \/ apostrophe c.

(** *** Concrete surroundings for the examples *)

(** A stand-in for zod's e-mail expression: some [@] in the string. *)
Definition has_at (s : jsstring) : bool := existsb (Z.eqb 64) s.

Definition endpoint : jsstring := js "https://example.com/api/onboard".

(** A configured host whose clock is [tza] milliseconds ahead of UTC. *)
Definition host_at (tza : Z) : Host :=
  {| NEXT_PUBLIC_ONBOARD_URL := Some endpoint;
     LocalTZA := tza;
     Date_parse_other := fun _ => None;
     email_regex := has_at;
     decodeURIComponent := fun s => Some s |}.

Definition host_utc : Host := host_at 0.

(** A host whose [decodeURIComponent] throws: as a stand-in, on any
    percent sign. *)
Definition host_decoding : Host :=
  {| NEXT_PUBLIC_ONBOARD_URL := Some endpoint;
     LocalTZA := 0;
     Date_parse_other := fun _ => None;
     email_regex := has_at;
     decodeURIComponent :=
       fun s => if existsb (Z.eqb 37) s then None else Some s |}.

(** New York in winter, five hours behind UTC. *)
Definition host_west : Host := host_at (-18000000).

(** The same, with no endpoint configured. *)
Definition host_unconfigured : Host :=
  {| NEXT_PUBLIC_ONBOARD_URL := None;
     LocalTZA := 0;
     Date_parse_other := fun _ => None;
     email_regex := has_at;
     decodeURIComponent := fun s => Some s |}.

(** 2025-01-15T17:00:00.000Z, noon of 15 January 2025 in New York. *)
Definition noon_2025_01_15 : Z := 1736960400000.

Definition form_of (services budget date : value) : Form.t :=
  {| Form.fullName := VString (js "Jane O'Brien");
     Form.email := VString (js "jane@example.com");
     Form.companyName := VString (js "Acme");
     Form.services := services;
     Form.budgetUsd := budget;
     Form.projectStartDate := date;
     Form.acceptTerms := VBoolean true |}.

Definition jane : Form.t :=
  form_of (VArray [VString (js "Branding")]) (VNumber (of_Z 5000))
    (VString (js "2025-01-15")).

(** *** Properties of the states of the page *)

Import App Page.

(** The services value holds strings of the option list only. *)
Definition offered (v : value) : Prop :=
  exists l, v = VArray (map VString l)
            /\ Forall (fun s => In s SERVICE_OPTIONS) l.

(** Exactly one of the two indicators is set. *)
Definition one_indicator (s : State) : Prop :=
  (isSubmitted s = true /\ submissionError s = None)
  \/ (isSubmitted s = false /\ exists m, submissionError s = Some m).

(** At most one call of [onSubmit] is suspended, and [isSubmitting] says
    whether one is. *)
Definition single_flight (sys : Sys) : Prop :=
  match pending sys with
  | [] => isSubmitting (ui sys) = false
  | [_] => isSubmitting (ui sys) = true
           /\ isSubmitted (ui sys) = false
           /\ submissionError (ui sys) = None
  | _ :: _ :: _ => False
  end.

Definition lifecycle (sys : Sys) : Prop :=
  single_flight sys
  /\ (pending sys <> [] -> (0 < attempts sys)%nat)
  /\ (isSubmitted (ui sys) = true -> submissionError (ui sys) = None)
  /\ (pending sys = [] -> (0 < attempts sys)%nat -> one_indicator (ui sys)).

(** The page as mounted with no [service] parameter. *)
Definition start : Sys :=
  {| ui := initial; pending := []; sent := []; attempts := 0 |}.

(** A run of events from a state; [None] when one is not offered. *)
Fixpoint run (h : Host) (sys : Sys) (evs : list event) : option Sys :=
  match evs with
  | [] => Some sys
  | ev :: evs' => match step h sys ev with
                  | Some sys' => run h sys' evs'
                  | None => None
                  end
  end.

(** Filling the form in as [jane] and pressing the button at [now]. *)
Definition fill_in_and_submit (now : Z) : list event :=
  [ Change (InFullName (js "Jane O'Brien"));
    Change (InEmail (js "jane@example.com"));
    Change (InCompanyName (js "Acme"));
    ToggleService (js "Branding") true;
    Change (InBudgetUsd (of_Z 5000));
    Change (InProjectStartDate (js "2025-01-15"));
    Change (InAcceptTerms true);
    Submit now ].

(** What the schema makes of [jane], and the payload built from it. *)
Definition jane_data : Data.t :=
  {| Data.fullName := js "Jane O'Brien";
     Data.email := js "jane@example.com";
     Data.companyName := js "Acme";
     Data.services := [js "Branding"];
     Data.budgetUsd := Some (of_Z 5000);
     Data.projectStartDate := js "2025-01-15";
     Data.acceptTerms := true |}.

Definition answer (status : Z) (body : json) : Request.t -> settled :=
  fun _ => Fulfilled {| Response.status := status; Response.body := body |}.

(** The state "carries the payload echoed back in the response body":
    what it holds is what the body of the response says. *)
Definition carries_body_of (r : Response.t) (s : State) : Prop :=
  exists d, submittedData s = Some d /\ JSON_stringify d = Response.body r.

(** *** The shape of a calendar date *)

Definition is_digit (c : Z) : bool := (48 <=? c) && (c <=? 57).

(** Four digits, a hyphen, two digits, a hyphen, two digits. *)
Definition is_YYYY_MM_DD (s : jsstring) : bool :=
  match s with
  | [y1; y2; y3; y4; h1; m1; m2; h2; d1; d2] =>
      is_digit y1 && is_digit y2 && is_digit y3 && is_digit y4
      && (h1 =? 45)
      && is_digit m1 && is_digit m2
      && (h2 =? 45)
      && is_digit d1 && is_digit d2
  | _ => false
  end.

(** [pad width n] is [width] digits that read back as [n]. *)
Definition pad_reads_back (width : nat) (n : Z) : bool :=
  let s := Date.pad width n in
  (List.length s =? width)%nat && forallb is_digit s
  && match Date.number_of s with
     | Some m => m =? n
     | None => false
     end.

(** [f] holds of 0, 1, ..., [k - 1]. *)
Definition below (k : Z) (f : Z -> bool) : bool :=
  forallb f (map Z.of_nat (seq 0 (Z.to_nat k))).

(** The date part of [toISOString]: [toISOString().split("T")[0]]. *)
Definition iso_date (d : Date.t) : option jsstring :=
  option_map (split_0 (code "T")) (Date.toISOString d).

(** Valid values whose start date is the first day of the year 10000. *)
Definition in_year_10000 : Data.t :=
  {| Data.fullName := js "Jane O'Brien";
     Data.email := js "jane@example.com";
     Data.companyName := js "Acme";
     Data.services := [js "Branding"];
     Data.budgetUsd := None;
     Data.projectStartDate := js "+010000-01-01";
     Data.acceptTerms := true |}.

(** A calendar date written YYYY-MM-DD, as a date input writes it: the
    shape, a month from 01 to 12 and a day that month has. *)
Definition is_calendar_date (s : jsstring) : bool :=
  is_YYYY_MM_DD s
  && match s with
     | [y1; y2; y3; y4; _; m1; m2; _; d1; d2] =>
         match Date.number_of [y1; y2; y3; y4], Date.number_of [m1; m2],
               Date.number_of [d1; d2] with
         | Some y, Some m, Some d =>
             (1 <=? m) && (m <=? 12) && (1 <=? d)
             && (d <=? Date.DaysInMonth y (m - 1))
         | _, _, _ => false
         end
     | _ => false
     end.

(** An engine that rolls a day past the end of its month over into the
    next month, as V8 does. *)
Definition rolled_over (s : jsstring) : Date.t :=
  match Date.parse_year s with
  | Some (y, [h1; m1; m2; h2; d1; d2]) =>
      match Date.number_of [m1; m2], Date.number_of [d1; d2] with
      | Some m, Some d =>
          if Date.past_month_end y m d
          then Some (Date.MakeDate (Date.MakeDay y (m - 1) d) 0)
          else None
      | _, _ => None
      end
  | _ => None
  end.

Definition host_rolling : Host :=
  {| NEXT_PUBLIC_ONBOARD_URL := Some endpoint;
     LocalTZA := 0;
     Date_parse_other := rolled_over;
     email_regex := has_at;
     decodeURIComponent := fun s => Some s |}.

(** Values whose start date is the thirtieth of February. *)
Definition on_30_february : Data.t :=
  {| Data.fullName := js "Jane O'Brien";
     Data.email := js "jane@example.com";
     Data.companyName := js "Acme";
     Data.services := [js "Branding"];
     Data.budgetUsd := None;
     Data.projectStartDate := js "2025-02-30";
     Data.acceptTerms := true |}.

(** *** Tactics *)

(** Evaluates the closed entries of the month table. *)
Ltac days_before_month :=
  repeat match goal with
         | |- context [Date.DaysBeforeMonth ?l ?k] =>
             let v := eval vm_compute in (Date.DaysBeforeMonth l k) in
             change (Date.DaysBeforeMonth l k) with v
         | H : context [Date.DaysBeforeMonth ?l ?k] |- _ =>
             let v := eval vm_compute in (Date.DaysBeforeMonth l k) in
             change (Date.DaysBeforeMonth l k) with v in H
         end.

(** Rules out [c = k] from the bounds at hand. *)
Ltac not_this c k :=
  let H := fresh in
  destruct (Z.eqb_spec c k) as [H | H];
  [exfalso; lia |].

(* ================================================================== *)
(** ** What the page renders *)
(* ================================================================== *)

(** [checked={field.value.includes(label)}] of a [ServiceCheckbox] *)
Definition checkbox_checked (label : jsstring) (services : value) : bool :=
  match services with
  | VArray l => existsb (fun v => negb (differs label v)) l
  | _ => false
  end.

(** [l.join(sep)] *)
Fixpoint join (sep : jsstring) (l : list jsstring) : jsstring :=
  match l with
  | [] => []
  | [x] => x
  | x :: l' => x ++ sep ++ join sep l'
  end.

(** The lines of the success alert. *)
Record SuccessAlert := {
  shown_fullName : jsstring;
  shown_email : jsstring;
  shown_services : jsstring;
  shown_projectStart : jsstring
}.

Inductive rendering (A : Type) :=
| Throws
| Nothing
| Shows (a : A).
Arguments Throws {A}.
Arguments Nothing {A}.
Arguments Shows {A} a.

(** [{isSubmitted && (...submittedData.fullName...)}]: reading a
    property of [null] throws. *)
Definition success_alert (s : State) : rendering SuccessAlert :=
  if isSubmitted s then
    match submittedData s with
    | Some d =>
        Shows {| shown_fullName := Data.fullName d;
                 shown_email := Data.email d;
                 shown_services := join (js ", ") (Data.services d);
                 shown_projectStart := Data.projectStartDate d |}
    | None => Throws
    end
  else Nothing.

(** [{submissionError && (...)}]: [null] and the empty string show
    nothing. *)
Definition error_alert (s : State) : rendering string :=
  match submissionError s with
  | None => Nothing
  | Some EmptyString => Nothing
  | Some m => Shows m
  end.

(** *** Properties of the requests *)

(** A request the page may send: a POST of the payload of validated
    values to the configured endpoint. *)
Definition from_valid_form (h : Host) (req : Request.t) (payload : Data.t)
  : Prop :=
  exists (c : Z) (url : jsstring) (now : Z) (v : Form.t) (data : Data.t),
    NEXT_PUBLIC_ONBOARD_URL h = Some (c :: url)
    /\ formSchema h now v = OK data
    /\ make_payload h data = Some payload
    /\ req = post (c :: url) payload.

(** What the page remembers of its requests. *)
Definition requests_kept (h : Host) (sys : Sys) : Prop :=
  Forall (fun req => exists payload, from_valid_form h req payload) (sent sys)
  /\ Forall (fun rp => In (fst rp) (sent sys)
                       /\ from_valid_form h (fst rp) (snd rp)) (pending sys)
  /\ (forall d, submittedData (ui sys) = Some d ->
                exists req, In req (sent sys) /\ from_valid_form h req d)
  /\ (isSubmitted (ui sys) = true -> submittedData (ui sys) <> None)
  /\ (List.length (sent sys) <= attempts sys)%nat.

(** Values with an unparseable start date, which validation would not
    let through. *)
Definition with_bad_date : Data.t :=
  {| Data.fullName := js "Jane O'Brien";
     Data.email := js "jane@example.com";
     Data.companyName := js "Acme";
     Data.services := [js "Branding"];
     Data.budgetUsd := None;
     Data.projectStartDate := js "soon";
     Data.acceptTerms := true |}.

(** The messages [onSubmit] can leave in [submissionError]. *)
Definition known_error (m : string) : Prop :=
  m = config_error \/ m = network_error \/ exists status, m = api_error status.

(* ================================================================== *)
(** ** When the combinators succeed *)
(* ================================================================== *)

Lemma success_OK {A} (r : ParseReturn A) :
  success r = true <-> exists x, r = OK x.
Proof.
  destruct r; simpl; split; try discriminate; eauto;
    intros [x H]; discriminate.
Qed.

Lemma transform_OK {A B} (a : Schema A) (f : A -> B) (v : value) (y : B) :
  transform a f v = OK y <-> exists x, a v = OK x /\ y = f x.
Proof.
  unfold transform. destruct (a v) as [x | x i | i]; split.
  - intros H. inversion H. eauto.
  - intros (x' & H & ->). inversion H. reflexivity.
  - discriminate.
  - intros (x' & H & _). discriminate.
  - discriminate.
  - intros (x' & H & _). discriminate.
Qed.

Lemma refine_OK {A} (a : Schema A) (p : A -> bool) (msg : string)
  (v : value) (x : A) :
  refine a p msg v = OK x <-> a v = OK x /\ p x = true.
Proof.
  unfold refine. destruct (a v) as [x' | x' i | i].
  - destruct (p x') eqn:Hp; split.
    + intros H. inversion H. subst. auto.
    + intros [H _]. exact H.
    + discriminate.
    + intros [H Hx]. inversion H. subst. congruence.
  - destruct (p x'); split; try discriminate; intros [H _]; discriminate.
  - split; try discriminate; intros [H _]; discriminate.
Qed.

Lemma with_issues_OK {A} (a x : A) (i : list string) :
  with_issues a i = OK x <-> a = x /\ i = [].
Proof.
  destruct i; simpl; split.
  - intros H. inversion H. auto.
  - intros [-> _]. reflexivity.
  - discriminate.
  - intros [_ H]. discriminate.
Qed.

Lemma string_OK (cs : list (Check jsstring)) (v : value) (s : jsstring) :
  string_ cs v = OK s <-> v = VString s /\ run_checks cs s = [].
Proof.
  unfold string_. destruct v; simpl; try (split; [discriminate | intros [H _]; discriminate]).
  rewrite with_issues_OK. split.
  - intros [-> H]. auto.
  - intros [H1 H2]. inversion H1. subst. auto.
Qed.

Lemma field_OK {A B} (f : ParseReturn (A -> B)) (x : ParseReturn A) (b : B) :
  field f x = OK b <-> exists g a, f = OK g /\ x = OK a /\ b = g a.
Proof.
  destruct f as [g | g i | i], x as [a | a j | j]; simpl; split;
    try discriminate;
    try (intros (g' & a' & H1 & H2 & _); discriminate).
  - intros H. inversion H. eauto.
  - intros (g' & a' & H1 & H2 & ->). inversion H1. inversion H2. reflexivity.
Qed.
(* ================================================================== *)
(** ** fullName *)
(* ================================================================== *)

Lemma is_whitespace_spec (c : Z) : is_whitespace c = true <-> white_space c.
Proof.
  unfold is_whitespace, white_space. cbn [existsb].
  rewrite !orb_true_iff, !andb_true_iff, !Z.leb_le, !Z.eqb_eq.
  intuition lia.
Qed.

Lemma fullName_class_spec (c : Z) :
  fullName_class c = true <-> fullName_char c.
Proof.
  unfold fullName_class, fullName_char.
  rewrite !orb_true_iff, is_whitespace_spec.
  unfold ascii_letter, hyphen, apostrophe, in_range, is_char.
  change (code "a") with 97. change (code "z") with 122.
  change (code "A") with 65. change (code "Z") with 90.
  change (code "'") with 39. change (code "-") with 45.
  rewrite !andb_true_iff, !Z.leb_le, !Z.eqb_eq.
  intuition lia.
Qed.

Lemma test_class_plus_spec (cls : Z -> bool) (s : jsstring) :
  test_class_plus cls s = true <-> s <> [] /\ Forall (fun c => cls c = true) s.
Proof.
  unfold test_class_plus. destruct s as [|c s'].
  - split; [discriminate | intros [H _]; congruence].
  - rewrite forallb_forall, Forall_forall. split.
    + intros H. split; [discriminate | exact H].
    + intros [_ H]. exact H.
Qed.

Lemma length_nonneg (s : jsstring) : 0 <= JS.length s.
Proof. unfold JS.length. lia. Qed.

Lemma fullName_test_spec (s : jsstring) :
  test_class_plus fullName_class s = true <->
  s <> [] /\ Forall fullName_char s.
Proof.
  rewrite test_class_plus_spec. split; intros [Hne H]; split; trivial;
    eapply Forall_impl; try exact H; intros c; apply fullName_class_spec.
Qed.

(** [C7] (as amended) A string is accepted as fullName exactly when it
    has 2 to 80 code units, each a letter of the ASCII alphabet, a
    white-space character (the space, but also tab, line breaks and the
    other white space of the class [\s]), a hyphen or an apostrophe;
    "Jane O'Brien" and "Anne-Marie" are accepted, "J" and "John123" are
    rejected. *)
Theorem fullName_rule :
  (forall s : jsstring,
      success (fullName_schema (VString s)) = true <->
      2 <= JS.length s <= 80 /\ Forall fullName_char s)
  /\ success (fullName_schema (VString (js "Jane O'Brien"))) = true
  /\ success (fullName_schema (VString (js "Anne-Marie"))) = true
  /\ success (fullName_schema (VString (js "J"))) = false
  /\ success (fullName_schema (VString (js "John123"))) = false.
Proof.
  split; [| repeat split; reflexivity].
  intros s.
  unfold fullName_schema, string_, run_checks, min, max, regex. simpl.
  destruct (JS.length s <? 2) eqn:Hmin;
    destruct (80 <? JS.length s) eqn:Hmax;
    destruct (test_class_plus fullName_class s) eqn:Hre; simpl;
    try apply Z.ltb_lt in Hmin; try apply Z.ltb_ge in Hmin;
    try apply Z.ltb_lt in Hmax; try apply Z.ltb_ge in Hmax;
    split; try discriminate; try (intros [Hlen Hall]; exfalso; lia).
  - intros _. split; [lia | apply fullName_test_spec; exact Hre].
  - reflexivity.
  - intros [Hlen Hall].
    assert (Hne : s <> [])
      by (intros ->; unfold JS.length in Hlen; simpl in Hlen; lia).
    rewrite (proj2 (fullName_test_spec s) (conj Hne Hall)) in Hre.
    discriminate.
Qed.

(** [C7] (as stated) fails both ways.  "J", tab, "J" has three code
    units and is accepted, though a tab is no letter, space, hyphen or
    apostrophe, and so are two line feeds; "Jos" followed by e with an
    acute accent (U+00E9) has four code units, all letters, and is
    rejected. *)
Lemma fullName_tab_accepted_accent_rejected :
  (success (fullName_schema (VString [74; 9; 74])) = true
   /\ ~ (2 <= JS.length [74; 9; 74] <= 80
         /\ Forall plain_fullName_char [74; 9; 74]))
  /\ success (fullName_schema (VString [10; 10])) = true
  /\ (success (fullName_schema (VString [74; 111; 115; 233])) = false
      /\ 2 <= JS.length [74; 111; 115; 233] <= 80
      /\ Forall plain_fullName_char [74; 111; 115; 233]).
Proof.
  split; [split; [reflexivity |] | split; [reflexivity | split; [reflexivity |]]].
  - intros [_ H]. inversion H as [| ? ? _ H']. inversion H' as [| ? ? Ht _].
    unfold plain_fullName_char, plain_letter, ascii_letter, hyphen,
      apostrophe in Ht. lia.
  - split; [unfold JS.length; simpl; lia |].
    repeat constructor;
      unfold plain_fullName_char, plain_letter, ascii_letter; lia.
Qed.

(* ================================================================== *)
(** ** budgetUsd *)
(* ================================================================== *)

(** The empty string is accepted and becomes [undefined]. *)
Lemma budgetUsd_empty : budgetUsd_schema (VString []) = OK None.
Proof. reflexivity. Qed.

Lemma budgetUsd_boundaries :
  success (budgetUsd_schema (VNumber (of_Z 99))) = false
  /\ budgetUsd_schema (VNumber (of_Z 100)) = OK (Some (of_Z 100))
  /\ budgetUsd_schema (VNumber (of_Z 1000000)) = OK (Some (of_Z 1000000))
  /\ success (budgetUsd_schema (VNumber (of_Z 1000001))) = false.
Proof. repeat split; reflexivity. Qed.

Lemma in_range_number (n : number) :
  JS.ge n (of_Z 100) && JS.le n (of_Z 1000000) = true <->
  exists q, n = Finite q /\ (100 <= q)%Q /\ (q <= 1000000)%Q.
Proof.
  unfold JS.ge, JS.le, of_Z. destruct n as [| neg | q].
  - simpl. split; [discriminate | intros (q & H & _); discriminate].
  - destruct neg; simpl;
      (split; [discriminate | intros (q & H & _); discriminate]).
  - rewrite andb_true_iff, !Qle_bool_iff. split.
    + intros [H1 H2]. exists q. auto.
    + intros (q' & H & H1 & H2). inversion H. subst. auto.
Qed.

(** What the schema lets through: [""], giving [undefined], or an
    integer from 100 to 1000000, giving itself. *)
Lemma budgetUsd_OK (v : value) (out : option number) :
  budgetUsd_schema v = OK out <->
  (v = VString [] /\ out = None)
  \/ (exists q, v = VNumber (Finite q) /\ out = Some (Finite q)
                /\ Number_isInteger (Finite q) = true
                /\ (100 <= q)%Q /\ (q <= 1000000)%Q).
Proof.
  unfold budgetUsd_schema. rewrite transform_OK. split.
  - intros (x & H & ->). apply refine_OK in H. destruct H as [H Hp].
    unfold optional, union, number_int, literal_empty in H.
    destruct v as [| | b | n | s | l]; try discriminate.
    + inversion H. subst. discriminate.
    + destruct n as [| neg | q]; try discriminate.
      destruct (Number_isInteger (Finite q)) eqn:Hint; try discriminate.
      inversion H. subst x. right. exists q.
      apply in_range_number in Hp. destruct Hp as (q' & Heq & H1 & H2).
      inversion Heq. subst q'. auto.
    + destruct s; try discriminate. inversion H. subst x. left. auto.
  - intros [[-> ->] | (q & -> & -> & Hint & H1 & H2)].
    + exists (Some (inr tt)). split; [| reflexivity].
      apply refine_OK. split; reflexivity.
    + exists (Some (inl (Finite q))). split; [| reflexivity].
      apply refine_OK. split.
      * unfold optional, union, number_int. rewrite Hint. reflexivity.
      * apply in_range_number. eauto.
Qed.

(** A number is accepted exactly when it is an integer from 100 to
    1000000. *)
Lemma budgetUsd_number (n : number) :
  success (budgetUsd_schema (VNumber n)) = true <->
  exists q, n = Finite q /\ Number_isInteger n = true
            /\ (100 <= q)%Q /\ (q <= 1000000)%Q.
Proof.
  rewrite success_OK. split.
  - intros [out H]. apply budgetUsd_OK in H.
    destruct H as [[H _] | (q & H & _ & Hint & H1 & H2)]; [discriminate |].
    inversion H. subst. eauto.
  - intros (q & -> & Hint & H1 & H2). exists (Some (Finite q)).
    apply budgetUsd_OK. right. exists q. auto.
Qed.

(** [C5] An absent budget ([undefined]) is rejected: the refinement runs
    on it and [undefined] is neither [""] nor within the range. *)
Theorem budgetUsd_absent_rejected :
  success (budgetUsd_schema VUndefined) = false
  /\ issues_of (budgetUsd_schema VUndefined)
     = ["Budget must be between 100 and 1,000,000 USD."].
Proof. split; reflexivity. Qed.

(* ================================================================== *)
(** ** services *)
(* ================================================================== *)

Lemma string_any (v : value) :
  (exists s, v = VString s /\ string_ [] v = OK s)
  \/ (exists i, string_ [] v = INVALID i).
Proof.
  destruct v; simpl; eauto.
Qed.

Lemma mergeArray_strings (l : list value) (xs : list jsstring) :
  mergeArray (map (string_ []) l) = OK xs <-> l = map VString xs.
Proof.
  revert xs. induction l as [| v l IH]; intros xs; simpl.
  - split.
    + intros H. inversion H. reflexivity.
    + destruct xs; [reflexivity | discriminate].
  - destruct (string_any v) as [(s & -> & Hs) | (i & Hi)].
    + rewrite Hs.
      destruct (mergeArray (map (string_ []) l)) as [ys | ys j | j] eqn:Hm.
      * split.
        -- intros H. inversion H. subst xs. simpl. f_equal.
           apply IH. reflexivity.
        -- destruct xs as [| x xs']; [discriminate |]. simpl. intros H.
           inversion H. subst. f_equal. f_equal.
           assert (Hok : OK ys = OK xs') by (apply IH; reflexivity).
           inversion Hok. reflexivity.
      * split; [discriminate |].
        destruct xs as [| x xs']; [discriminate |]. simpl. intros H.
        inversion H. subst.
        assert (Hok : DIRTY ys j = OK xs') by (apply IH; reflexivity).
        discriminate.
      * split; [discriminate |].
        destruct xs as [| x xs']; [discriminate |]. simpl. intros H.
        inversion H. subst.
        assert (Hok : INVALID j = OK xs') by (apply IH; reflexivity).
        discriminate.
    + rewrite Hi. split; [discriminate |].
      destruct xs as [| x xs']; [discriminate |]. simpl. intros H.
      inversion H. subst. simpl in Hi. discriminate.
Qed.

(** What the schema lets through: an array of strings, one at least. *)
Lemma services_OK (v : value) (xs : list jsstring) :
  services_schema v = OK xs <-> v = VArray (map VString xs) /\ xs <> [].
Proof.
  unfold services_schema, array_min.
  destruct v as [| | b | n | s | l];
    try (simpl; split; [discriminate | intros [H _]; discriminate]).
  destruct (mergeArray (map (string_ []) l)) as [ys | ys j | j] eqn:Hm.
  - apply mergeArray_strings in Hm. subst l.
    rewrite length_map, with_issues_OK. split.
    + intros [-> Hshort]. split; [reflexivity |].
      intros ->. simpl in Hshort. discriminate.
    + intros [H Hne]. inversion H as [Hmap].
      assert (ys = xs).
      { clear - Hmap. revert xs Hmap.
        induction ys as [| y ys IH]; intros [| x xs] Hmap;
          try discriminate; trivial.
        simpl in Hmap. inversion Hmap. f_equal. auto. }
      subst ys. split; [reflexivity |].
      destruct xs as [| x xs]; [congruence |]. simpl List.length.
      destruct (Z.of_nat (S (List.length xs)) <? 1) eqn:Hlt; [| reflexivity].
      apply Z.ltb_lt in Hlt. lia.
  - split; [discriminate |]. intros [H _]. inversion H. subst l.
    assert (Hok : mergeArray (map (string_ []) (map VString xs)) = OK xs)
      by (apply mergeArray_strings; reflexivity).
    congruence.
  - split; [discriminate |]. intros [H _]. inversion H. subst l.
    assert (Hok : mergeArray (map (string_ []) (map VString xs)) = OK xs)
      by (apply mergeArray_strings; reflexivity).
    congruence.
Qed.

Lemma jsstring_eqb_eq (a b : jsstring) : jsstring_eqb a b = true <-> a = b.
Proof.
  revert b. induction a as [| x a IH]; intros [| y b]; simpl;
    try (split; [discriminate | intros H; discriminate]);
    [split; reflexivity |].
  rewrite andb_true_iff, Z.eqb_eq, IH. split.
  - intros [-> ->]. reflexivity.
  - intros H. inversion H. auto.
Qed.

Lemma includes_In (l : list jsstring) (x : jsstring) :
  App.includes l x = true <-> In x l.
Proof.
  unfold App.includes. rewrite existsb_exists. split.
  - intros (y & Hin & Heq). apply jsstring_eqb_eq in Heq. subst. exact Hin.
  - intros Hin. exists x. split; [exact Hin | apply jsstring_eqb_eq; reflexivity].
Qed.

(* ================================================================== *)
(** ** The submit lifecycle *)
(* ================================================================== *)

Lemma reachable_run (h : Host) (evs : list event) :
  forall sys sys', reachable h sys -> run h sys evs = Some sys' ->
                   reachable h sys'.
Proof.
  induction evs as [| ev evs IH]; intros sys sys' Hr Hrun; simpl in Hrun.
  - inversion Hrun. subst. exact Hr.
  - destruct (step h sys ev) as [sys1 |] eqn:Hstep; [| discriminate].
    eapply IH; [| exact Hrun]. eapply reachable_step; eauto.
Qed.

(** [onSubmit_begin] either ends the call with an error set, or suspends
    it with both indicators cleared and [isSubmitting] set; the values of
    the form are untouched. *)
Lemma onSubmit_begin_cases (h : Host) (data : Data.t) (s : State) :
  (exists m, onSubmit_begin h data s
             = ({| isSubmitting := false;
                   isSubmitted := false;
                   submissionError := Some m;
                   submittedData := submittedData s;
                   values := values s;
                   errors := errors s |}, None))
  \/ (exists rp, onSubmit_begin h data s
                 = ({| isSubmitting := true;
                       isSubmitted := false;
                       submissionError := None;
                       submittedData := submittedData s;
                       values := values s;
                       errors := errors s |}, Some rp)).
Proof.
  unfold onSubmit_begin.
  destruct (NEXT_PUBLIC_ONBOARD_URL h) as [[| c u] |].
  - left. eexists. reflexivity.
  - destruct (make_payload h data) as [p |].
    + right. eexists. reflexivity.
    + left. eexists. reflexivity.
  - left. eexists. reflexivity.
Qed.

(** Resuming clears [isSubmitting] and, from cleared indicators, sets
    exactly one of them. *)
Lemma onSubmit_resume_flags (outcome : settled) (payload : Data.t) (s : State) :
  isSubmitted s = false -> submissionError s = None ->
  isSubmitting (onSubmit_resume outcome payload s) = false
  /\ one_indicator (onSubmit_resume outcome payload s).
Proof.
  intros H1 H2. unfold onSubmit_resume, one_indicator.
  destruct outcome as [r |]; [destruct (Response.ok r) |]; simpl.
  - auto.
  - split; [reflexivity |]. right. rewrite H1. eauto.
  - split; [reflexivity |]. right. rewrite H1. eauto.
Qed.

Lemma nth_error_single {A} (x y : A) (k : nat) :
  nth_error [x] k = Some y -> k = O /\ x = y.
Proof.
  destruct k as [| k]; simpl.
  - intros H. inversion H. auto.
  - destruct k; discriminate.
Qed.

(** The effect run at mount touches the services value only, and puts
    there nothing but an option of the list. *)
Lemma prefill_cases (h : Host) (p : option jsstring) (s s' : State) :
  prefill h p s = Some s' ->
  s' = s
  \/ (exists d, In d SERVICE_OPTIONS
                /\ s' = setServices (VArray [VString d]) s).
Proof.
  unfold prefill. destruct p as [[| c p] |];
    try (intros H; injection H as <-; auto; fail).
  destruct (decodeURIComponent h (c :: p)) as [d |]; [| discriminate].
  destruct (includes SERVICE_OPTIONS d) eqn:Hd;
    intros H; injection H as <-; auto.
  right. exists d. split; [apply includes_In; exact Hd | reflexivity].
Qed.

(** The page once mounted: nothing sent or pending, the state the
    initial one but for the services. *)
Lemma init_cases (h : Host) (p : option jsstring) (sys : Sys) :
  init h p = Some sys ->
  pending sys = [] /\ sent sys = [] /\ attempts sys = 0%nat
  /\ (ui sys = initial
      \/ (exists d, In d SERVICE_OPTIONS
                    /\ ui sys = setServices (VArray [VString d]) initial)).
Proof.
  unfold init. destruct (prefill h p initial) as [s |] eqn:Hp;
    [| discriminate].
  intros H. injection H as <-. cbn.
  repeat split. exact (prefill_cases h p initial s Hp).
Qed.

Lemma lifecycle_init (h : Host) (p : option jsstring) (sys : Sys) :
  init h p = Some sys -> lifecycle sys.
Proof.
  intros H. destruct (init_cases h p sys H) as (Hp & _ & Ha & Hu).
  assert (Hf : isSubmitting (ui sys) = false /\ isSubmitted (ui sys) = false).
  { destruct Hu as [-> | (d & _ & ->)]; auto. }
  destruct Hf as [Hf1 Hf2].
  unfold lifecycle, single_flight. rewrite Hp, Ha.
  split; [exact Hf1 |]. split; [congruence |]. split; [congruence |].
  intros _ Hlt. inversion Hlt.
Qed.

Lemma lifecycle_step (h : Host) (sys sys' : Sys) (ev : event) :
  lifecycle sys -> step h sys ev = Some sys' -> lifecycle sys'.
Proof.
  intros (Hsf & Hatt & Hboth & Hone) Hstep.
  assert (Hidle : isSubmitting (ui sys) = false -> pending sys = []).
  { intros Hi. unfold single_flight in Hsf.
    destruct (pending sys) as [| rp [| rp' l]]; trivial.
    - destruct Hsf as [Hs _]. congruence.
    - contradiction. }
  destruct ev as [i | label checked | now | k outcome]; unfold step in Hstep.
  - destruct (isSubmitting (ui sys)) eqn:Hi; [discriminate |].
    inversion Hstep. subst sys'. clear Hstep.
    unfold lifecycle, single_flight in *. simpl.
    rewrite (Hidle eq_refl) in *. auto.
  - destruct (includes SERVICE_OPTIONS label); [| discriminate].
    inversion Hstep. subst sys'. clear Hstep.
    unfold lifecycle, single_flight in *. simpl. auto.
  - destruct (isSubmitting (ui sys)) eqn:Hi; [discriminate |].
    specialize (Hidle eq_refl).
    unfold handleSubmit in Hstep.
    destruct (formSchema h now (values (ui sys))) as [data | d i | i] eqn:Hf;
      cbn [success issues_of] in Hstep.
    + destruct (onSubmit_begin_cases h data (setErrors [] (ui sys)))
        as [[m Hb] | [[req p] Hb]]; rewrite Hb in Hstep;
        inversion Hstep; subst sys'; clear Hstep;
        unfold lifecycle, single_flight, one_indicator; simpl;
        rewrite Hidle; simpl.
      * split; [reflexivity |]. split; [congruence |].
        split; [congruence |]. intros _ _. right. eauto.
      * split; [auto |]. split; [lia |].
        split; [congruence |]. intros H. inversion H.
    + inversion Hstep. subst sys'. clear Hstep.
      unfold lifecycle, single_flight, one_indicator in *. simpl.
      rewrite Hidle in *. auto.
    + inversion Hstep. subst sys'. clear Hstep.
      unfold lifecycle, single_flight, one_indicator in *. simpl.
      rewrite Hidle in *. auto.
  - destruct (nth_error (pending sys) k) as [[req payload] |] eqn:Hk;
      [| discriminate].
    inversion Hstep. subst sys'. clear Hstep.
    unfold single_flight in Hsf.
    destruct (pending sys) as [| rp [| rp' l]] eqn:Hp.
    + destruct k; discriminate.
    + apply nth_error_single in Hk. destruct Hk as [-> ->].
      destruct Hsf as (Hs1 & Hs2 & Hs3).
      destruct (onSubmit_resume_flags outcome payload (ui sys) Hs2 Hs3)
        as [Hr1 Hr2].
      unfold lifecycle, single_flight. cbn [ui pending attempts remove_nth].
      split; [exact Hr1 |]. split; [congruence |]. split.
      * intros Hsub. destruct Hr2 as [[_ He] | [Hn _]]; congruence.
      * intros _ _. exact Hr2.
    + contradiction.
Qed.

Lemma lifecycle_reachable (h : Host) (sys : Sys) :
  reachable h sys -> lifecycle sys.
Proof.
  induction 1 as [p sys Hinit | sys ev sys' _ IH Hstep].
  - eapply lifecycle_init; eauto.
  - eapply lifecycle_step; eauto.
Qed.

Lemma handleSubmit_values (h : Host) (now : Z) (s : State) :
  values (fst (handleSubmit h now s)) = values s.
Proof.
  unfold handleSubmit.
  destruct (formSchema h now (values s)) as [data | d i | i]; try reflexivity.
  destruct (onSubmit_begin_cases h data (setErrors [] s))
    as [[m Hb] | [rp Hb]]; rewrite Hb; reflexivity.
Qed.

Lemma onSubmit_resume_values (outcome : settled) (payload : Data.t) (s : State) :
  values (onSubmit_resume outcome payload s) = defaultValues
  \/ values (onSubmit_resume outcome payload s) = values s.
Proof.
  unfold onSubmit_resume.
  destruct outcome as [r |]; [destruct (Response.ok r) |]; simpl; auto.
Qed.

Lemma filter_differs (label : jsstring) (l : list jsstring) :
  filter (differs label) (map VString l)
  = map VString (filter (fun s => negb (jsstring_eqb s label)) l).
Proof.
  induction l as [| s l IH]; simpl; [reflexivity |].
  destruct (jsstring_eqb s label); simpl; rewrite IH; reflexivity.
Qed.

Lemma offered_newServices (label : jsstring) (checked : bool) (v : value) :
  In label SERVICE_OPTIONS -> offered v ->
  offered (newServices label checked v).
Proof.
  intros Hin (l & -> & Hall). unfold newServices. destruct checked.
  - exists (l ++ [label]). split.
    + rewrite map_app. reflexivity.
    + apply Forall_app. split; [exact Hall | constructor; auto].
  - exists (filter (fun s => negb (jsstring_eqb s label)) l). split.
    + rewrite filter_differs. reflexivity.
    + rewrite Forall_forall in *. intros s Hs.
      apply filter_In in Hs. destruct Hs as [Hs _]. auto.
Qed.

Lemma offered_default : offered (Form.services defaultValues).
Proof. exists []. split; [reflexivity | constructor]. Qed.

(** Whatever the user does, the services value holds options of the
    list only. *)
Lemma offered_reachable (h : Host) (sys : Sys) :
  reachable h sys -> offered (Form.services (values (ui sys))).
Proof.
  induction 1 as [p sys Hinit | sys ev sys' _ IH Hstep].
  - destruct (init_cases h p sys Hinit) as (_ & _ & _ & [-> | (d & Hd & ->)]).
    + apply offered_default.
    + exists [d]. split; [reflexivity | constructor; auto].
  - destruct ev as [i | label checked | now | k outcome]; unfold step in Hstep.
    + destruct (isSubmitting (ui sys)); [discriminate |].
      inversion Hstep. subst sys'. exact IH.
    + destruct (includes SERVICE_OPTIONS label) eqn:Hl; [| discriminate].
      inversion Hstep. subst sys'. cbn [ui setServices setValues values Form.services].
      apply offered_newServices; [apply includes_In; exact Hl | exact IH].
    + destruct (isSubmitting (ui sys)); [discriminate |].
      pose proof (handleSubmit_values h now (ui sys)) as Hv.
      destruct (handleSubmit h now (ui sys)) as [s' [[req p] |]];
        inversion Hstep; subst sys'; cbn [ui]; cbn [fst] in Hv; rewrite Hv;
        exact IH.
    + destruct (nth_error (pending sys) k) as [[req payload] |];
        [| discriminate].
      inversion Hstep. subst sys'. cbn [ui].
      destruct (onSubmit_resume_values outcome payload (ui sys)) as [-> | ->].
      * apply offered_default.
      * exact IH.
Qed.

(** [C1] (as amended) Validation accepts the services field exactly when
    it is an array of strings with at least one element; it does not look
    at the option list.  It is the page that keeps to the list: in every
    state the user can reach the field holds options of the list only. *)
Theorem services_rule :
  (forall v : value,
      success (services_schema v) = true <->
      exists l, l <> [] /\ v = VArray (map VString l))
  /\ (forall (h : Host) (sys : Sys),
         reachable h sys -> offered (Form.services (values (ui sys)))).
Proof.
  split.
  - intros v. split.
    + intros H. apply success_OK in H. destruct H as [xs H].
      apply services_OK in H. destruct H as [-> Hne]. exists xs. auto.
    + intros (l & Hne & ->). apply success_OK. exists l.
      apply services_OK. auto.
  - exact offered_reachable.
Qed.

Lemma services_rule_witness :
  exists sys,
    run host_utc start (fill_in_and_submit noon_2025_01_15)
    = Some sys
    /\ offered (Form.services (values (ui sys))).
Proof.
  eexists. split; [vm_compute; reflexivity |].
  apply (proj2 services_rule host_utc).
  apply (reachable_run host_utc (fill_in_and_submit noon_2025_01_15)
           start); [apply (reachable_init host_utc None); reflexivity |].
  vm_compute. reflexivity.
Defined.

(** [C1] (as stated) fails: a list with a string that is no option is
    accepted, by the field's schema and by the schema of the form. *)
Lemma services_outside_options_accepted :
  let v := VArray [VString (js "Consulting")] in
  ~ In (js "Consulting") SERVICE_OPTIONS
  /\ services_schema v = OK [js "Consulting"]
  /\ success
       (formSchema host_utc noon_2025_01_15
          (form_of v (VString []) (VString (js "2025-01-15")))) = true.
Proof.
  split; [| split; vm_compute; reflexivity].
  intros H. apply includes_In in H. vm_compute in H. discriminate.
Qed.

(** [C8] Single flight: at most one call of [onSubmit] is ever
    outstanding; while one is, [isSubmitting] is set; and while
    [isSubmitting] is set the page offers no submit. *)
Theorem single_flight_reachable (h : Host) (sys : Sys) :
  reachable h sys ->
  (List.length (pending sys) <= 1)%nat
  /\ (pending sys <> [] -> isSubmitting (ui sys) = true)
  /\ (isSubmitting (ui sys) = true ->
      forall now, step h sys (Submit now) = None).
Proof.
  intros Hr. apply lifecycle_reachable in Hr. destruct Hr as (Hsf & _).
  unfold single_flight in Hsf. split; [| split].
  - destruct (pending sys) as [| rp [| rp' l]]; simpl; try lia;
      contradiction.
  - destruct (pending sys) as [| rp [| rp' l]];
      [congruence | intros _; apply Hsf | contradiction].
  - intros Hs now. unfold step. rewrite Hs. reflexivity.
Qed.

Lemma single_flight_witness :
  exists sys,
    run host_utc start (fill_in_and_submit noon_2025_01_15)
    = Some sys
    /\ List.length (pending sys) = 1%nat
    /\ ((List.length (pending sys) <= 1)%nat
        /\ (pending sys <> [] -> isSubmitting (ui sys) = true)
        /\ (isSubmitting (ui sys) = true ->
            forall now, step host_utc sys (Submit now) = None)).
Proof.
  eexists. split; [vm_compute; reflexivity |].
  split; [reflexivity |].
  apply (single_flight_reachable host_utc).
  apply (reachable_run host_utc (fill_in_and_submit noon_2025_01_15)
           start); [apply (reachable_init host_utc None); reflexivity |].
  vm_compute. reflexivity.
Defined.

(* ================================================================== *)
(** ** One call of onSubmit *)
(* ================================================================== *)

(** [C3] With no endpoint configured ([undefined] or the empty string)
    a call of [onSubmit] ends before its first [await], in the state of
    the configuration error, and issues no request; a submit of the page
    then leaves the requests sent and pending as they were. *)
Theorem no_endpoint_no_request (h : Host) :
  NEXT_PUBLIC_ONBOARD_URL h = None \/ NEXT_PUBLIC_ONBOARD_URL h = Some [] ->
  (forall (data : Data.t) (s : State),
      onSubmit_begin h data s
      = ({| isSubmitting := false;
            isSubmitted := false;
            submissionError := Some config_error;
            submittedData := submittedData s;
            values := values s;
            errors := errors s |}, None))
  /\ (forall (fetch : Request.t -> settled) (data : Data.t) (s : State),
         snd (onSubmit h fetch data s) = []
         /\ submissionError (fst (onSubmit h fetch data s))
            = Some config_error)
  /\ (forall (sys sys' : Sys) (now : Z),
         step h sys (Submit now) = Some sys' ->
         sent sys' = sent sys /\ pending sys' = pending sys).
Proof.
  intros Hurl.
  assert (Hb : forall data s,
             onSubmit_begin h data s
             = ({| isSubmitting := false;
                   isSubmitted := false;
                   submissionError := Some config_error;
                   submittedData := submittedData s;
                   values := values s;
                   errors := errors s |}, None)).
  { intros data s. unfold onSubmit_begin.
    destruct Hurl as [-> | ->]; reflexivity. }
  split; [exact Hb | split].
  - intros fetch data s. unfold onSubmit. rewrite Hb. split; reflexivity.
  - intros sys sys' now. unfold step, handleSubmit.
    destruct (isSubmitting (ui sys)); [discriminate |].
    destruct (formSchema h now (values (ui sys))) as [data | d i | i].
    + rewrite Hb. intros H. inversion H. split; reflexivity.
    + intros H. inversion H. split; reflexivity.
    + intros H. inversion H. split; reflexivity.
Qed.

Lemma no_endpoint_no_request_witness :
  NEXT_PUBLIC_ONBOARD_URL host_unconfigured = None
  /\ snd (onSubmit host_unconfigured (answer 200 JNull) jane_data initial) = []
  /\ submissionError
       (fst (onSubmit host_unconfigured (answer 200 JNull) jane_data initial))
     = Some config_error.
Proof.
  split; [reflexivity |].
  exact (proj1 (proj2 (no_endpoint_no_request host_unconfigured
                         (or_introl eq_refl)))
           (answer 200 JNull) jane_data initial).
Defined.

(** [C2] (as amended) When the response has a 2xx status the call ends
    in the succeeded state, holding the payload it sent (the body of the
    response is not read), with the fields of the form back at their
    defaults. *)
Theorem success_holds_sent_payload (h : Host) (fetch : Request.t -> settled)
  (data payload : Data.t) (s : State) (c : Z) (url : jsstring)
  (r : Response.t) :
  NEXT_PUBLIC_ONBOARD_URL h = Some (c :: url) ->
  make_payload h data = Some payload ->
  fetch (post (c :: url) payload) = Fulfilled r ->
  200 <= Response.status r <= 299 ->
  onSubmit h fetch data s
  = ({| isSubmitting := false;
        isSubmitted := true;
        submissionError := None;
        submittedData := Some payload;
        values := defaultValues;
        errors := [] |}, [post (c :: url) payload]).
Proof.
  intros Hurl Hp Hf Hst. unfold onSubmit, onSubmit_begin.
  rewrite Hurl, Hp, Hf. unfold onSubmit_resume, Response.ok.
  replace ((200 <=? Response.status r) && (Response.status r <=? 299))
    with true by (symmetry; apply andb_true_iff; split; apply Z.leb_le; lia).
  reflexivity.
Qed.

Lemma success_holds_sent_payload_witness :
  onSubmit host_utc (answer 200 JNull) jane_data initial
  = ({| isSubmitting := false;
        isSubmitted := true;
        submissionError := None;
        submittedData := Some jane_data;
        values := defaultValues;
        errors := [] |}, [post endpoint jane_data]).
Proof.
  apply (success_holds_sent_payload host_utc (answer 200 JNull) jane_data
           jane_data initial 104 (List.tl endpoint)
           {| Response.status := 200; Response.body := JNull |}).
  - reflexivity.
  - reflexivity.
  - reflexivity.
  - simpl. lia.
Defined.

(** [C2] (as stated) fails: the response is 200 with the body [null],
    the state is succeeded, and what it holds is the payload that was
    sent, not what the body of the response says. *)
Lemma succeeded_state_ignores_response_body :
  let r := {| Response.status := 200; Response.body := JNull |} in
  let s' := fst (onSubmit host_utc (fun _ => Fulfilled r) jane_data initial) in
  Response.ok r = true
  /\ isSubmitted s' = true
  /\ submittedData s' = Some jane_data
  /\ ~ carries_body_of r s'.
Proof.
  cbv zeta. split; [reflexivity |]. split; [reflexivity |].
  split; [reflexivity |].
  intros (d & Hd & Hbody). vm_compute in Hd. inversion Hd. subst d.
  vm_compute in Hbody. discriminate.
Qed.

(** [C4] When the response has a status outside 200..299 the call ends
    in the failed state, its message containing the status code, and
    the values of the form are those it started with. *)
Theorem http_error_keeps_form (h : Host) (fetch : Request.t -> settled)
  (data payload : Data.t) (s : State) (c : Z) (url : jsstring)
  (r : Response.t) :
  NEXT_PUBLIC_ONBOARD_URL h = Some (c :: url) ->
  make_payload h data = Some payload ->
  fetch (post (c :: url) payload) = Fulfilled r ->
  Response.status r < 200 \/ 299 < Response.status r ->
  onSubmit h fetch data s
  = ({| isSubmitting := false;
        isSubmitted := false;
        submissionError := Some (api_error (Response.status r));
        submittedData := submittedData s;
        values := values s;
        errors := errors s |}, [post (c :: url) payload])
  /\ contains (Number_toString (Response.status r))
       (api_error (Response.status r)).
Proof.
  intros Hurl Hp Hf Hst. split.
  - unfold onSubmit, onSubmit_begin.
    rewrite Hurl, Hp, Hf. unfold onSubmit_resume, Response.ok.
    replace ((200 <=? Response.status r) && (Response.status r <=? 299))
      with false; [reflexivity |].
    symmetry. apply andb_false_iff.
    destruct Hst; [left; apply Z.leb_gt | right; apply Z.leb_gt]; lia.
  - exists "API Error: ", " - An error occurred.". reflexivity.
Qed.

Lemma http_error_keeps_form_witness :
  onSubmit host_utc (answer 500 JNull) jane_data
    (setValues jane initial)
  = ({| isSubmitting := false;
        isSubmitted := false;
        submissionError := Some "API Error: 500 - An error occurred.";
        submittedData := None;
        values := jane;
        errors := [] |}, [post endpoint jane_data])
  /\ contains "500" "API Error: 500 - An error occurred.".
Proof.
  apply (http_error_keeps_form host_utc (answer 500 JNull) jane_data
           jane_data (setValues jane initial) 104 (List.tl endpoint)
           {| Response.status := 500; Response.body := JNull |}).
  - reflexivity.
  - reflexivity.
  - reflexivity.
  - right. simpl. lia.
Defined.

(** How a whole call ends: [isSubmitting] cleared and exactly one
    indicator set, the success one exactly when a request was issued and
    answered with a 2xx status. *)
Lemma onSubmit_ends (h : Host) (fetch : Request.t -> settled)
  (data : Data.t) (s : State) :
  isSubmitting (fst (onSubmit h fetch data s)) = false
  /\ one_indicator (fst (onSubmit h fetch data s))
  /\ (isSubmitted (fst (onSubmit h fetch data s)) = true <->
      exists req r, snd (onSubmit h fetch data s) = [req]
                    /\ fetch req = Fulfilled r /\ Response.ok r = true).
Proof.
  unfold onSubmit.
  destruct (onSubmit_begin_cases h data s) as [[m Hb] | [[req p] Hb]];
    rewrite Hb; cbn [fst snd].
  - split; [reflexivity |]. split.
    + right. simpl. eauto.
    + simpl. split; [discriminate |].
      intros (req & r & H & _). discriminate.
  - unfold onSubmit_resume, one_indicator.
    destruct (fetch req) as [r |] eqn:Hf; [destruct (Response.ok r) eqn:Hok |];
      simpl.
    + split; [reflexivity |]. split; [auto |].
      split; [| reflexivity]. intros _. exists req, r. auto.
    + split; [reflexivity |]. split; [right; eauto |].
      split; [discriminate |].
      intros (req' & r' & H & Hf' & Hok'). inversion H. subst req'.
      rewrite Hf in Hf'. inversion Hf'. subst r'. congruence.
    + split; [reflexivity |]. split; [right; eauto |].
      split; [discriminate |].
      intros (req' & r' & H & Hf' & _). inversion H. subst req'.
      rewrite Hf in Hf'. discriminate.
Qed.

(** [C10] A call of [onSubmit] ends with [isSubmitting] cleared and
    exactly one of the two indicators set, success exactly on a 2xx
    answer; and in every state the page can reach the two are never set
    together, [isSubmitting] is clear whenever no call is outstanding,
    and once a call has been made and none is outstanding exactly one
    indicator is set. *)
Theorem indicators_exclusive :
  (forall (h : Host) (fetch : Request.t -> settled) (data : Data.t)
          (s : State),
      isSubmitting (fst (onSubmit h fetch data s)) = false
      /\ one_indicator (fst (onSubmit h fetch data s))
      /\ (isSubmitted (fst (onSubmit h fetch data s)) = true <->
          exists req r, snd (onSubmit h fetch data s) = [req]
                        /\ fetch req = Fulfilled r
                        /\ Response.ok r = true))
  /\ (forall (h : Host) (sys : Sys),
         reachable h sys ->
         (isSubmitted (ui sys) = true -> submissionError (ui sys) = None)
         /\ (pending sys = [] ->
             isSubmitting (ui sys) = false
             /\ ((0 < attempts sys)%nat -> one_indicator (ui sys)))).
Proof.
  split; [exact onSubmit_ends |].
  intros h sys Hr. apply lifecycle_reachable in Hr.
  destruct Hr as (Hsf & _ & Hboth & Hone).
  split; [exact Hboth |]. intros Hp. split; [| auto].
  unfold single_flight in Hsf. rewrite Hp in Hsf. exact Hsf.
Qed.

Lemma indicators_exclusive_witness :
  exists sys,
    run host_utc start
      (fill_in_and_submit noon_2025_01_15
       ++ [Settle 0 (Fulfilled {| Response.status := 500;
                                  Response.body := JNull |})])
    = Some sys
    /\ pending sys = [] /\ attempts sys = 1%nat
    /\ (isSubmitted (ui sys) = true -> submissionError (ui sys) = None)
    /\ (pending sys = [] ->
        isSubmitting (ui sys) = false
        /\ ((0 < attempts sys)%nat -> one_indicator (ui sys))).
Proof.
  eexists. split; [vm_compute; reflexivity |].
  split; [reflexivity |]. split; [reflexivity |].
  apply (proj2 indicators_exclusive host_utc).
  apply (reachable_run host_utc
           (fill_in_and_submit noon_2025_01_15
            ++ [Settle 0 (Fulfilled {| Response.status := 500;
                                       Response.body := JNull |})])
           start); [apply (reachable_init host_utc None); reflexivity |].
  vm_compute. reflexivity.
Defined.

(* ================================================================== *)
(** ** The calendar *)
(* ================================================================== *)

Lemma DayFromYear_succ (y : Z) :
  Date.DayFromYear (y + 1) = Date.DayFromYear y + Date.DaysInYear y.
Proof.
  unfold Date.DayFromYear, Date.DaysInYear, Date.InLeapYear.
  assert (E1 : (y mod 100) mod 4 = y mod 4)
    by (apply Z.mod_mod_divide; exists 25; lia).
  assert (E2 : (y mod 400) mod 100 = y mod 100)
    by (apply Z.mod_mod_divide; exists 4; lia).
  destruct (Z.eqb_spec (y mod 4) 0) as [H4 | H4];
    destruct (Z.eqb_spec (y mod 100) 0) as [H100 | H100];
    destruct (Z.eqb_spec (y mod 400) 0) as [H400 | H400];
    cbn [andb orb negb];
    Z.div_mod_to_equations; lia.
Qed.

(** The year found is the year of the day. *)
Lemma YearFromDay_spec (d : Z) :
  Date.DayFromYear (Date.YearFromDay d) <= d
  < Date.DayFromYear (Date.YearFromDay d + 1).
Proof.
  unfold Date.YearFromDay.
  set (y := 1970 + d * 400 / 146097).
  assert (Hlo : Date.DayFromYear (y - 1) <= d).
  { unfold Date.DayFromYear, y. Z.div_mod_to_equations. lia. }
  assert (Hhi : d < Date.DayFromYear (y + 2)).
  { unfold Date.DayFromYear, y. Z.div_mod_to_equations. lia. }
  destruct (d <? Date.DayFromYear y) eqn:H1.
  - apply Z.ltb_lt in H1. replace (y - 1 + 1) with y by lia. lia.
  - apply Z.ltb_ge in H1.
    destruct (Date.DayFromYear (y + 1) <=? d) eqn:H2.
    + apply Z.leb_le in H2. replace (y + 1 + 1) with (y + 2) by lia. lia.
    + apply Z.leb_gt in H2. lia.
Qed.

Lemma DayWithinYear_bounds (tv : Z) :
  0 <= Date.DayWithinYear tv < Date.DaysInYear (Date.YearFromTime tv).
Proof.
  unfold Date.DayWithinYear, Date.YearFromTime.
  pose proof (YearFromDay_spec (Date.Day tv)) as H.
  rewrite DayFromYear_succ in H. lia.
Qed.

(** The month found is the month of the day of the year. *)
Lemma MonthFromDayWithinYear_spec (leap : bool) (d : Z) :
  0 <= d < (if leap then 366 else 365) ->
  0 <= Date.MonthFromDayWithinYear leap d <= 11
  /\ Date.DaysBeforeMonth leap (Date.MonthFromDayWithinYear leap d) <= d
     < Date.DaysBeforeMonth leap (Date.MonthFromDayWithinYear leap d + 1).
Proof.
  intros Hd. unfold Date.MonthFromDayWithinYear.
  repeat match goal with
         | |- context [d <? ?b] => destruct (Z.ltb_spec d b); cbv iota
         end;
    destruct leap; days_before_month; lia.
Qed.

Lemma MonthFromTime_bounds (tv : Z) : 0 <= Date.MonthFromTime tv <= 11.
Proof.
  unfold Date.MonthFromTime.
  apply MonthFromDayWithinYear_spec.
  pose proof (DayWithinYear_bounds tv) as H.
  unfold Date.DaysInYear in H. exact H.
Qed.

Lemma DateFromTime_bounds (tv : Z) :
  1 <= Date.DateFromTime tv
  <= Date.DaysInMonth (Date.YearFromTime tv) (Date.MonthFromTime tv).
Proof.
  unfold Date.DateFromTime, Date.DaysInMonth, Date.MonthFromTime.
  pose proof (DayWithinYear_bounds tv) as H. unfold Date.DaysInYear in H.
  pose proof (MonthFromDayWithinYear_spec
                (Date.InLeapYear (Date.YearFromTime tv))
                (Date.DayWithinYear tv) H) as [_ Hm].
  lia.
Qed.

Lemma DaysInMonth_le_31 (y m : Z) : 0 <= m <= 11 -> Date.DaysInMonth y m <= 31.
Proof.
  intros Hm. unfold Date.DaysInMonth.
  assert (Hc : m = 0 \/ m = 1 \/ m = 2 \/ m = 3 \/ m = 4 \/ m = 5 \/ m = 6
               \/ m = 7 \/ m = 8 \/ m = 9 \/ m = 10 \/ m = 11) by lia.
  destruct (Date.InLeapYear y);
    repeat (destruct Hc as [-> | Hc]; [vm_compute; discriminate |]);
    subst m; vm_compute; discriminate.
Qed.

(** The day is the day of its year, month and date. *)
Lemma MakeDay_of_time (tv : Z) :
  Date.MakeDay (Date.YearFromTime tv) (Date.MonthFromTime tv)
    (Date.DateFromTime tv) = Date.Day tv.
Proof.
  unfold Date.MakeDay, Date.DateFromTime, Date.DayWithinYear. lia.
Qed.

(** *** Digits *)

Lemma below_spec (k : Z) (f : Z -> bool) :
  below k f = true -> forall n, 0 <= n < k -> f n = true.
Proof.
  unfold below. rewrite forallb_forall. intros H n Hn. apply H.
  apply in_map_iff. exists (Z.to_nat n). split; [lia |].
  apply in_seq. lia.
Qed.

Lemma pad_2 (n : Z) : 0 <= n <= 99 -> pad_reads_back 2 n = true.
Proof.
  intros Hn. apply (below_spec 100); [vm_compute; reflexivity | lia].
Qed.

Lemma pad_4 (n : Z) : 0 <= n <= 9999 -> pad_reads_back 4 n = true.
Proof.
  intros Hn. apply (below_spec 10000); [vm_compute; reflexivity | lia].
Qed.

(* ================================================================== *)
(** ** The date part of toISOString *)
(* ================================================================== *)

Lemma is_digit_range (c : Z) : is_digit c = true -> 48 <= c <= 57.
Proof.
  unfold is_digit. rewrite andb_true_iff, !Z.leb_le. trivial.
Qed.

Lemma pad_2_shape (n : Z) :
  0 <= n <= 99 ->
  exists a b, Date.pad 2 n = [a; b]
              /\ is_digit a = true /\ is_digit b = true
              /\ Date.number_of [a; b] = Some n.
Proof.
  intros Hn. pose proof (pad_2 n Hn) as H. unfold pad_reads_back in H.
  destruct (Date.pad 2 n) as [| a [| b [| c l]]]; try discriminate.
  exists a, b. apply andb_true_iff in H. destruct H as [H Hnum].
  apply andb_true_iff in H. destruct H as [_ Hd].
  cbn [forallb] in Hd. rewrite !andb_true_iff in Hd.
  destruct Hd as (Ha & Hb & _).
  destruct (Date.number_of [a; b]) as [m |]; [| discriminate].
  apply Z.eqb_eq in Hnum. subst m. auto.
Qed.

Lemma pad_4_shape (n : Z) :
  0 <= n <= 9999 ->
  exists a b c d, Date.pad 4 n = [a; b; c; d]
                  /\ is_digit a = true /\ is_digit b = true
                  /\ is_digit c = true /\ is_digit d = true
                  /\ Date.number_of [a; b; c; d] = Some n.
Proof.
  intros Hn. pose proof (pad_4 n Hn) as H. unfold pad_reads_back in H.
  destruct (Date.pad 4 n) as [| a [| b [| c [| d [| e l]]]]];
    try discriminate.
  exists a, b, c, d. apply andb_true_iff in H. destruct H as [H Hnum].
  apply andb_true_iff in H. destruct H as [_ Hd].
  cbn [forallb] in Hd. rewrite !andb_true_iff in Hd.
  destruct Hd as (Ha & Hb & Hc & Hd & _).
  destruct (Date.number_of [a; b; c; d]) as [m |]; [| discriminate].
  apply Z.eqb_eq in Hnum. subst m. auto 6.
Qed.

(** Ten code units of the shape of a date, followed by [T]: what they
    are cut to, and how they read. *)
Lemma date_text (y1 y2 y3 y4 m1 m2 d1 d2 yr mo dt : Z) (rest : jsstring) :
  is_digit y1 = true -> is_digit y2 = true -> is_digit y3 = true ->
  is_digit y4 = true -> is_digit m1 = true -> is_digit m2 = true ->
  is_digit d1 = true -> is_digit d2 = true ->
  Date.number_of [y1; y2; y3; y4] = Some yr ->
  Date.number_of [m1; m2] = Some mo ->
  Date.number_of [d1; d2] = Some dt ->
  let s := [y1; y2; y3; y4; 45; m1; m2; 45; d1; d2] in
  split_0 (code "T") (s ++ code "T" :: rest) = s
  /\ is_YYYY_MM_DD s = true
  /\ Date.parse_date_only s
     = if Date.past_month_end yr mo dt then None
       else Some (if (1 <=? mo) && (mo <=? 12) && (1 <=? dt)
                     && (dt <=? Date.DaysInMonth yr (mo - 1))
                  then Date.TimeClip
                         (Date.MakeDate (Date.MakeDay yr (mo - 1) dt) 0)
                  else None).
Proof.
  intros Hy1 Hy2 Hy3 Hy4 Hm1 Hm2 Hd1 Hd2 Hyr Hmo Hdt s.
  pose proof (is_digit_range _ Hy1). pose proof (is_digit_range _ Hy2).
  pose proof (is_digit_range _ Hy3). pose proof (is_digit_range _ Hy4).
  pose proof (is_digit_range _ Hm1). pose proof (is_digit_range _ Hm2).
  pose proof (is_digit_range _ Hd1). pose proof (is_digit_range _ Hd2).
  split; [| split].
  - unfold s. change (code "T") with 84. cbn [app split_0].
    not_this y1 84. not_this y2 84. not_this y3 84. not_this y4 84.
    not_this m1 84. not_this m2 84. not_this d1 84. not_this d2 84.
    change (45 =? 84) with false. cbv iota.
    rewrite Z.eqb_refl. reflexivity.
  - unfold s, is_YYYY_MM_DD.
    rewrite Hy1, Hy2, Hy3, Hy4, Hm1, Hm2, Hd1, Hd2. reflexivity.
  - unfold s, Date.parse_date_only, Date.parse_year.
    change Date.plus with 43. change Date.hyphen with 45.
    not_this y1 43. not_this y1 45. cbn [orb].
    rewrite Hyr. change (45 =? 45) with true. cbn [andb].
    rewrite Hmo, Hdt. reflexivity.
Qed.

(** For a year from 0 to 9999 the date part of [toISOString] has the
    shape YYYY-MM-DD and reads as the UTC day of the time value. *)
Lemma iso_date_spec (tv : Z) :
  0 <= Date.YearFromTime tv <= 9999 ->
  exists s, iso_date (Some tv) = Some s
            /\ is_YYYY_MM_DD s = true
            /\ Date.parse_date_only s
               = Some (Date.TimeClip (Date.Day tv * Date.msPerDay)).
Proof.
  intros Hy.
  pose proof (MonthFromTime_bounds tv) as Hm.
  pose proof (DateFromTime_bounds tv) as Hd.
  pose proof (DaysInMonth_le_31 (Date.YearFromTime tv) _ Hm) as Hd31.
  destruct (pad_4_shape (Date.YearFromTime tv) Hy)
    as (y1 & y2 & y3 & y4 & Ey & Hy1 & Hy2 & Hy3 & Hy4 & Ny).
  destruct (pad_2_shape (Date.MonthFromTime tv + 1) ltac:(lia))
    as (m1 & m2 & Em & Hm1 & Hm2 & Nm).
  destruct (pad_2_shape (Date.DateFromTime tv) ltac:(lia))
    as (d1 & d2 & Ed & Hd1 & Hd2 & Nd).
  unfold iso_date, Date.toISOString, Date.year_string.
  replace ((0 <=? Date.YearFromTime tv) && (Date.YearFromTime tv <=? 9999))
    with true by (symmetry; apply andb_true_iff; split; apply Z.leb_le; lia).
  rewrite Ey, Em, Ed. change (js "T") with [code "T"%char].
  change Date.hyphen with 45. cbn [app option_map].
  match goal with
  | |- context [split_0 _ (_ :: _ :: _ :: _ :: _ :: _ :: _ :: _ :: _ :: _
                             :: _ :: ?rest)] =>
      pose proof (date_text y1 y2 y3 y4 m1 m2 d1 d2 _ _ _ rest
                    Hy1 Hy2 Hy3 Hy4 Hm1 Hm2 Hd1 Hd2 Ny Nm Nd)
        as (Hcut & Hshape & Hread)
  end.
  cbn [app] in Hcut. rewrite Hcut.
  eexists. split; [reflexivity |]. split; [exact Hshape |].
  rewrite Hread.
  replace (Date.past_month_end (Date.YearFromTime tv)
             (Date.MonthFromTime tv + 1) (Date.DateFromTime tv))
    with false
    by (symmetry; unfold Date.past_month_end;
        replace (Date.MonthFromTime tv + 1 - 1)
          with (Date.MonthFromTime tv) by lia;
        rewrite !andb_false_iff, Z.ltb_ge; tauto).
  replace (Date.MonthFromTime tv + 1 - 1) with (Date.MonthFromTime tv) by lia.
  replace ((1 <=? Date.MonthFromTime tv + 1)
           && (Date.MonthFromTime tv + 1 <=? 12)
           && (1 <=? Date.DateFromTime tv)
           && (Date.DateFromTime tv
               <=? Date.DaysInMonth (Date.YearFromTime tv)
                     (Date.MonthFromTime tv)))
    with true
    by (symmetry; rewrite !andb_true_iff, !Z.leb_le; lia).
  rewrite MakeDay_of_time. unfold Date.MakeDate.
  rewrite Z.add_0_r. reflexivity.
Qed.

(* ================================================================== *)
(** ** projectStartDate *)
(* ================================================================== *)

Lemma TimeClip_Some (x tv : Z) :
  Date.TimeClip x = Some tv -> x = tv /\ Z.abs tv <= 8640000000000000.
Proof.
  unfold Date.TimeClip.
  destruct (Z.leb_spec (Z.abs x) 8640000000000000) as [H | H];
    [| discriminate].
  intros E. inversion E. subst. auto.
Qed.

Lemma start_of_today_Some (h : Host) (now tv : Z) :
  start_of_today h now = Some tv ->
  tv = Date.Day (now + LocalTZA h) * Date.msPerDay - LocalTZA h.
Proof.
  unfold start_of_today, Date.setHours0, Date.MakeDate.
  destruct (Date.TimeClip
              (Date.Day (now + LocalTZA h) * Date.msPerDay + 0 - LocalTZA h))
    as [u |] eqn:Hu; [| discriminate].
  apply TimeClip_Some in Hu. destruct Hu as [Hu _].
  intros H. apply TimeClip_Some in H. lia.
Qed.

(** West of UTC the date of the local day is rejected, whatever the
    time of day: a date-only string is read as midnight UTC, which is
    before the local midnight it is compared with. *)
Lemma today_rejected_west_of_UTC (h : Host) (now : Z) (date : jsstring) :
  LocalTZA h < 0 ->
  Date.parse_date_only date
  = Some (Some (Date.Day (now + LocalTZA h) * Date.msPerDay)) ->
  success (projectStartDate_schema h now (VString date)) = false.
Proof.
  intros Htz Hp.
  assert (Ht : today_or_later h now date = false).
  { unfold today_or_later, Date.parse. rewrite Hp. unfold Date.ge.
    destruct (start_of_today h now) as [u |] eqn:Hu; [| reflexivity].
    apply start_of_today_Some in Hu. apply Z.leb_gt. lia. }
  unfold projectStartDate_schema, refine, string_, with_issues.
  destruct (run_checks _ date); rewrite Ht; reflexivity.
Qed.

(** [C6] At noon of 15 January 2025 in New York the string "2025-01-15",
    the date of the day there, is rejected. *)
Theorem today_rejected_in_New_York :
  iso_date (Some (noon_2025_01_15 + LocalTZA host_west))
  = Some (js "2025-01-15")
  /\ success
       (projectStartDate_schema host_west noon_2025_01_15
          (VString (js "2025-01-15"))) = false
  /\ issues_of
       (projectStartDate_schema host_west noon_2025_01_15
          (VString (js "2025-01-15")))
     = ["Project start date must be today or later."].
Proof. repeat split; vm_compute; reflexivity. Qed.

(** How a date-only string fares, by the side of UTC the clock is on:
    at UTC and east of it the date must be the local day or a later one;
    west of it, the day after the local day or a later one. *)
Lemma date_only_rule (h : Host) (now D : Z) (date : jsstring) :
  - Date.msPerDay < LocalTZA h < Date.msPerDay ->
  Date.parse_date_only date = Some (Some (D * Date.msPerDay)) ->
  start_of_today h now <> None ->
  today_or_later h now date = true <->
  (if 0 <=? LocalTZA h then Date.Day (now + LocalTZA h) <= D
   else Date.Day (now + LocalTZA h) + 1 <= D).
Proof.
  intros Htz Hp Hs. unfold today_or_later, Date.parse. rewrite Hp.
  destruct (start_of_today h now) as [u |] eqn:Hu; [| congruence].
  apply start_of_today_Some in Hu. unfold Date.ge. rewrite Z.leb_le.
  unfold Date.msPerDay in *.
  destruct (Z.leb_spec 0 (LocalTZA h)); lia.
Qed.

(* ================================================================== *)
(** ** The request body *)
(* ================================================================== *)

(** A valid form, field by field. *)
Lemma formSchema_OK (h : Host) (now : Z) (v : Form.t) (data : Data.t) :
  formSchema h now v = OK data ->
  fullName_schema (Form.fullName v) = OK (Data.fullName data)
  /\ email_schema h (Form.email v) = OK (Data.email data)
  /\ companyName_schema (Form.companyName v) = OK (Data.companyName data)
  /\ services_schema (Form.services v) = OK (Data.services data)
  /\ budgetUsd_schema (Form.budgetUsd v) = OK (Data.budgetUsd data)
  /\ projectStartDate_schema h now (Form.projectStartDate v)
     = OK (Data.projectStartDate data)
  /\ acceptTerms_schema (Form.acceptTerms v) = OK (Data.acceptTerms data).
Proof.
  unfold formSchema. intros H.
  apply field_OK in H. destruct H as (g7 & a7 & H & H7 & ->).
  apply field_OK in H. destruct H as (g6 & a6 & H & H6 & ->).
  apply field_OK in H. destruct H as (g5 & a5 & H & H5 & ->).
  apply field_OK in H. destruct H as (g4 & a4 & H & H4 & ->).
  apply field_OK in H. destruct H as (g3 & a3 & H & H3 & ->).
  apply field_OK in H. destruct H as (g2 & a2 & H & H2 & ->).
  apply field_OK in H. destruct H as (g1 & a1 & H & H1 & ->).
  inversion H. subst g1. cbn. auto 8.
Qed.

Lemma parse_date_only_clipped (s : jsstring) (tv : Z) :
  Date.parse_date_only s = Some (Some tv) ->
  Z.abs tv <= 8640000000000000.
Proof.
  unfold Date.parse_date_only.
  destruct (Date.parse_year s) as [[y rest] |]; [| discriminate].
  destruct rest as [| h1 [| m1 [| m2 [| h2 [| d1 [| d2 [| x l]]]]]]];
    try discriminate.
  - intros H. inversion H as [E]. apply TimeClip_Some in E. tauto.
  - destruct (h1 =? Date.hyphen); [| discriminate].
    destruct (Date.number_of [m1; m2]) as [m |]; [| discriminate].
    destruct ((1 <=? m) && (m <=? 12)); [| discriminate].
    intros H. inversion H as [E]. apply TimeClip_Some in E. tauto.
  - destruct ((h1 =? Date.hyphen) && (h2 =? Date.hyphen)); [| discriminate].
    destruct (Date.number_of [m1; m2]) as [m |]; [| discriminate].
    destruct (Date.number_of [d1; d2]) as [d |]; [| discriminate].
    destruct (Date.past_month_end y m d); [discriminate |].
    match goal with
    | |- context [if ?c then _ else _] => destruct c
    end; [| discriminate].
    intros H. inversion H as [E]. apply TimeClip_Some in E. tauto.
Qed.

Lemma parse_clipped (other : jsstring -> Date.t) (s : jsstring) (tv : Z) :
  Date.parse other s = Some tv -> Z.abs tv <= 8640000000000000.
Proof.
  unfold Date.parse.
  destruct (Date.parse_date_only s) as [[u |] |] eqn:Hp.
  - intros H. inversion H. subst u. eapply parse_date_only_clipped; eauto.
  - discriminate.
  - destruct (other s) as [u |]; [| discriminate].
    intros H. apply TimeClip_Some in H. tauto.
Qed.

Lemma TimeClip_Day (tv : Z) :
  Z.abs tv <= 8640000000000000 ->
  Date.TimeClip (Date.Day tv * Date.msPerDay)
  = Some (Date.Day tv * Date.msPerDay).
Proof.
  intros H. unfold Date.TimeClip, Date.Day, Date.msPerDay.
  destruct (Z.leb_spec (Z.abs (tv / 86400000 * 86400000)) 8640000000000000)
    as [_ | Hc]; [reflexivity |].
  exfalso. Z.div_mod_to_equations. lia.
Qed.

(** Data that passed validation: the start date is a valid Date, the
    budget is absent or a finite number from 100 to 1000000, the terms
    are accepted. *)
Lemma validated (h : Host) (now : Z) (v : Form.t) (data : Data.t) :
  formSchema h now v = OK data ->
  (exists tv, Date.parse (Date_parse_other h) (Data.projectStartDate data)
              = Some tv)
  /\ (Data.budgetUsd data = None
      \/ exists q, Data.budgetUsd data = Some (Finite q)
                   /\ (100 <= q)%Q /\ (q <= 1000000)%Q)
  /\ Data.acceptTerms data = true.
Proof.
  intros H. apply formSchema_OK in H.
  destruct H as (_ & _ & _ & _ & Hb & Hd & Ht).
  split; [| split].
  - unfold projectStartDate_schema in Hd. apply refine_OK in Hd.
    destruct Hd as [_ Hd]. unfold today_or_later, Date.ge in Hd.
    destruct (Date.parse (Date_parse_other h) (Data.projectStartDate data))
      as [tv |]; [eauto | discriminate].
  - apply budgetUsd_OK in Hb.
    destruct Hb as [[_ ->] | (q & _ & -> & _ & H1 & H2)]; eauto.
  - unfold acceptTerms_schema in Ht. apply refine_OK in Ht. tauto.
Qed.

Lemma truthy_budget (q : Q) : (100 <= q)%Q -> truthy_number (Finite q) = true.
Proof.
  unfold Qle, truthy_number. cbn [Qnum Qden]. intros H.
  destruct (Z.eqb_spec (Qnum q) 0) as [E | E]; [| reflexivity].
  rewrite E in H. lia.
Qed.

(** [C9] (as amended) For validated values [onSubmit] issues one request
    whose body is the object of fullName, email, companyName, services,
    budgetUsd (a number; the member is left out when the budget is
    absent), projectStartDate and acceptTerms.  projectStartDate is the
    date part of [toISOString]; when the year of the date is from 0 to
    9999 it has the shape YYYY-MM-DD and names the UTC day of the start
    date. *)
Theorem request_body (h : Host) (now : Z) (v : Form.t) (data : Data.t)
  (c : Z) (url : jsstring) (s : State) :
  formSchema h now v = OK data ->
  NEXT_PUBLIC_ONBOARD_URL h = Some (c :: url) ->
  exists (tv : Z) (date : jsstring) (s' : State) (payload : Data.t),
    Date.parse (Date_parse_other h) (Data.projectStartDate data) = Some tv
    /\ iso_date (Some tv) = Some date
    /\ onSubmit_begin h data s
       = (s', Some (post (c :: url) payload, payload))
    /\ Request.body (post (c :: url) payload)
       = JObject
           ([ ("fullName", JString (Data.fullName data));
              ("email", JString (Data.email data));
              ("companyName", JString (Data.companyName data));
              ("services", JArray (map JString (Data.services data))) ]
            ++ match Data.budgetUsd data with
               | Some (Finite q) => [ ("budgetUsd", JNumber q) ]
               | _ => []
               end
            ++ [ ("projectStartDate", JString date);
                 ("acceptTerms", JBool true) ])
    /\ (Data.budgetUsd data = None
        \/ exists q, Data.budgetUsd data = Some (Finite q))
    /\ (0 <= Date.YearFromTime tv <= 9999 ->
        is_YYYY_MM_DD date = true
        /\ Date.parse_date_only date
           = Some (Some (Date.Day tv * Date.msPerDay))).
Proof.
  intros Hv Hurl.
  destruct (validated h now v data Hv) as ([tv Htv] & Hb & Ht).
  destruct (Date.toISOString (Some tv)) as [iso |] eqn:Hiso;
    [| discriminate].
  exists tv, (split_0 (code "T") iso).
  unfold onSubmit_begin, make_payload. rewrite Hurl, Htv, Hiso.
  eexists. eexists.
  split; [reflexivity |].
  split; [unfold iso_date; rewrite Hiso; reflexivity |].
  split; [reflexivity |].
  split; [| split].
  - unfold post, JSON_stringify. cbn [Request.body Data.fullName Data.email
      Data.companyName Data.services Data.budgetUsd Data.projectStartDate
      Data.acceptTerms].
    rewrite Ht.
    destruct Hb as [-> | (q & -> & Hq & _)].
    + reflexivity.
    + rewrite (truthy_budget q Hq). reflexivity.
  - destruct Hb as [-> | (q & -> & _)]; eauto.
  - intros Hy. destruct (iso_date_spec tv Hy) as (d & Hd & Hshape & Hread).
    unfold iso_date in Hd. rewrite Hiso in Hd. inversion Hd. subst d.
    split; [exact Hshape |].
    rewrite Hread, TimeClip_Day; [reflexivity |].
    eapply parse_clipped. exact Htv.
Qed.

Lemma request_body_witness :
  exists (tv : Z) (date : jsstring) (s' : State) (payload : Data.t),
    Date.parse (Date_parse_other host_utc) (js "2025-01-15") = Some tv
    /\ iso_date (Some tv) = Some date
    /\ onSubmit_begin host_utc jane_data initial
       = (s', Some (post endpoint payload, payload))
    /\ Request.body (post endpoint payload)
       = JObject
           [ ("fullName", JString (js "Jane O'Brien"));
             ("email", JString (js "jane@example.com"));
             ("companyName", JString (js "Acme"));
             ("services", JArray [JString (js "Branding")]);
             ("budgetUsd", JNumber (inject_Z 5000));
             ("projectStartDate", JString date);
             ("acceptTerms", JBool true) ]
    /\ (Data.budgetUsd jane_data = None
        \/ exists q, Data.budgetUsd jane_data = Some (Finite q))
    /\ (0 <= Date.YearFromTime tv <= 9999 ->
        is_YYYY_MM_DD date = true
        /\ Date.parse_date_only date
           = Some (Some (Date.Day tv * Date.msPerDay))).
Proof.
  exact (request_body host_utc noon_2025_01_15 jane jane_data 104
           (List.tl endpoint) initial eq_refl eq_refl).
Defined.

(** [C9] (as stated) fails: a start date in the year 10000 passes
    validation, and the projectStartDate sent is "+010000-01-01", which
    is not of the shape YYYY-MM-DD. *)
Lemma year_10000_is_not_YYYY_MM_DD :
  let v := form_of (VArray [VString (js "Branding")]) (VString [])
             (VString (js "+010000-01-01")) in
  formSchema host_utc noon_2025_01_15 v = OK in_year_10000
  /\ snd (onSubmit_begin host_utc in_year_10000 initial)
     = Some (post endpoint in_year_10000, in_year_10000)
  /\ Request.body (post endpoint in_year_10000)
     = JObject
         [ ("fullName", JString (js "Jane O'Brien"));
           ("email", JString (js "jane@example.com"));
           ("companyName", JString (js "Acme"));
           ("services", JArray [JString (js "Branding")]);
           ("projectStartDate", JString (js "+010000-01-01"));
           ("acceptTerms", JBool true) ]
  /\ is_YYYY_MM_DD (js "+010000-01-01") = false.
Proof.
  cbv zeta. repeat split; vm_compute; reflexivity.
Qed.

(* ================================================================== *)
(** ** The schema as a whole *)
(* ================================================================== *)

Lemma min_None (n : Z) (msg : string) (s : jsstring) :
  min n msg s = None <-> n <= JS.length s.
Proof.
  unfold min. destruct (Z.ltb_spec (JS.length s) n); split;
    try discriminate; try reflexivity; lia.
Qed.

Lemma max_None (n : Z) (msg : string) (s : jsstring) :
  max n msg s = None <-> JS.length s <= n.
Proof.
  unfold max. destruct (Z.ltb_spec n (JS.length s)); split;
    try discriminate; try reflexivity; lia.
Qed.

Lemma regex_None (test : jsstring -> bool) (msg : string) (s : jsstring) :
  regex test msg s = None <-> test s = true.
Proof.
  unfold regex. destruct (test s); split; try discriminate; reflexivity.
Qed.

Lemma run_checks_nil {A} (cs : list (Check A)) (a : A) :
  run_checks cs a = [] <-> Forall (fun c => c a = None) cs.
Proof.
  unfold run_checks. induction cs as [| c cs IH]; simpl.
  - split; [constructor | reflexivity].
  - destruct (c a) as [m |] eqn:Hc; simpl.
    + split; [discriminate |]. intros H. inversion H. congruence.
    + rewrite IH. split.
      * intros H. constructor; assumption.
      * intros H. inversion H. assumption.
Qed.

Lemma fullName_OK (v : value) (s : jsstring) :
  fullName_schema v = OK s <->
  v = VString s /\ 2 <= JS.length s <= 80 /\ Forall fullName_char s.
Proof.
  unfold fullName_schema.
  rewrite string_OK, run_checks_nil, !Forall_cons_iff, min_None, max_None,
    regex_None, fullName_test_spec.
  split.
  - intros (Hv & H1 & H2 & (_ & H3) & _). auto.
  - intros (Hv & Hlen & Hall). repeat split; try lia; auto.
    intros ->. unfold JS.length in Hlen. simpl in Hlen. lia.
Qed.

Lemma email_OK (h : Host) (v : value) (s : jsstring) :
  email_schema h v = OK s <->
  v = VString s /\ email_regex h s = true /\ 1 <= JS.length s.
Proof.
  unfold email_schema.
  rewrite string_OK, run_checks_nil, !Forall_cons_iff, min_None, regex_None.
  split.
  - intros (Hv & H1 & H2 & _). auto.
  - intros (Hv & H1 & H2). repeat split; auto.
Qed.

Lemma companyName_OK (v : value) (s : jsstring) :
  companyName_schema v = OK s <-> v = VString s /\ 2 <= JS.length s <= 100.
Proof.
  unfold companyName_schema.
  rewrite string_OK, run_checks_nil, !Forall_cons_iff, min_None, max_None.
  split.
  - intros (Hv & H1 & H2 & _). split; [exact Hv | lia].
  - intros (Hv & Hlen). repeat split; try lia; auto.
Qed.

Lemma projectStartDate_OK (h : Host) (now : Z) (v : value) (s : jsstring) :
  projectStartDate_schema h now v = OK s <->
  v = VString s /\ 1 <= JS.length s /\ today_or_later h now s = true.
Proof.
  unfold projectStartDate_schema.
  rewrite refine_OK, string_OK, run_checks_nil, !Forall_cons_iff, min_None.
  split.
  - intros ((Hv & H1 & _) & Ht). auto.
  - intros (Hv & H1 & Ht). repeat split; auto.
Qed.

Lemma acceptTerms_OK (v : value) (b : bool) :
  acceptTerms_schema v = OK b <-> v = VBoolean true /\ b = true.
Proof.
  unfold acceptTerms_schema. rewrite refine_OK. unfold boolean. split.
  - intros [H Hb]. subst b. destruct v; try discriminate.
    inversion H. subst. auto.
  - intros [-> ->]. auto.
Qed.

(** [X1] The form is valid exactly when its seven fields are: the name
    a string of 2 to 80 letters, spaces, hyphens and apostrophes; the
    e-mail a non-empty string the e-mail expression matches; the company
    name a string of 2 to 100 code units; the services an array of one
    string at least; the budget [""] or an integer from 100 to 1000000;
    the start date a non-empty string of a day not before today; the
    terms [true].  The output is the input, the budget [""] turned into
    [undefined]. *)
Theorem formSchema_accepts (h : Host) (now : Z) (v : Form.t) (data : Data.t) :
  formSchema h now v = OK data <->
  (Form.fullName v = VString (Data.fullName data)
   /\ 2 <= JS.length (Data.fullName data) <= 80
   /\ Forall fullName_char (Data.fullName data))
  /\ (Form.email v = VString (Data.email data)
      /\ email_regex h (Data.email data) = true
      /\ 1 <= JS.length (Data.email data))
  /\ (Form.companyName v = VString (Data.companyName data)
      /\ 2 <= JS.length (Data.companyName data) <= 100)
  /\ (Form.services v = VArray (map VString (Data.services data))
      /\ Data.services data <> [])
  /\ ((Form.budgetUsd v = VString [] /\ Data.budgetUsd data = None)
      \/ (exists q, Form.budgetUsd v = VNumber (Finite q)
                    /\ Data.budgetUsd data = Some (Finite q)
                    /\ Number_isInteger (Finite q) = true
                    /\ (100 <= q)%Q /\ (q <= 1000000)%Q))
  /\ (Form.projectStartDate v = VString (Data.projectStartDate data)
      /\ 1 <= JS.length (Data.projectStartDate data)
      /\ today_or_later h now (Data.projectStartDate data) = true)
  /\ (Form.acceptTerms v = VBoolean true /\ Data.acceptTerms data = true).
Proof.
  rewrite <- fullName_OK, <- email_OK, <- companyName_OK, <- services_OK,
    <- budgetUsd_OK, <- projectStartDate_OK, <- acceptTerms_OK.
  split; [apply formSchema_OK |].
  intros (H1 & H2 & H3 & H4 & H5 & H6 & H7).
  unfold formSchema. rewrite H1, H2, H3, H4, H5, H6, H7.
  destruct data. reflexivity.
Qed.

(** *** Issues *)

Lemma issues_field {A B} (f : ParseReturn (A -> B)) (x : ParseReturn A) :
  issues_of (field f x) = issues_of f ++ issues_of x.
Proof.
  destruct f as [g | g i | i], x as [a | a j | j]; simpl;
    try rewrite app_nil_r; reflexivity.
Qed.

Lemma formSchema_issues_fields (h : Host) (now : Z) (v : Form.t) :
  issues_of (formSchema h now v)
  = issues_of (fullName_schema (Form.fullName v))
    ++ issues_of (email_schema h (Form.email v))
    ++ issues_of (companyName_schema (Form.companyName v))
    ++ issues_of (services_schema (Form.services v))
    ++ issues_of (budgetUsd_schema (Form.budgetUsd v))
    ++ issues_of (projectStartDate_schema h now (Form.projectStartDate v))
    ++ issues_of (acceptTerms_schema (Form.acceptTerms v)).
Proof.
  unfold formSchema. rewrite !issues_field. simpl.
  rewrite <- !app_assoc. reflexivity.
Qed.

(** A result that is not valid carries a message: the combinators keep
    this. *)
Lemma told_with_issues {A} (a : A) (i : list string) :
  success (with_issues a i) = false -> issues_of (with_issues a i) <> [].
Proof. destruct i; simpl; congruence. Qed.

Lemma told_invalid_type {A} (expected : string) (v : value) :
  issues_of (@invalid_type A expected v) <> [].
Proof. destruct v; simpl; congruence. Qed.

Lemma told_string (cs : list (Check jsstring)) (v : value) :
  success (string_ cs v) = false -> issues_of (string_ cs v) <> [].
Proof.
  unfold string_. destruct v; try (intros _; apply told_invalid_type).
  apply told_with_issues.
Qed.

Lemma told_refine {A} (a : Schema A) (p : A -> bool) (msg : string)
  (v : value) :
  (success (a v) = false -> issues_of (a v) <> []) ->
  success (refine a p msg v) = false -> issues_of (refine a p msg v) <> [].
Proof.
  unfold refine. destruct (a v) as [x | x i | i]; simpl; intros H.
  - destruct (p x); simpl; congruence.
  - destruct (p x); simpl; intros _; [auto |].
    intros E. apply app_eq_nil in E. destruct E. discriminate.
  - auto.
Qed.

Lemma told_transform {A B} (a : Schema A) (f : A -> B) (v : value) :
  (success (a v) = false -> issues_of (a v) <> []) ->
  success (transform a f v) = false -> issues_of (transform a f v) <> [].
Proof.
  unfold transform. destruct (a v) as [x | x i | i]; simpl; auto.
Qed.

Lemma told_optional {A} (a : Schema A) (v : value) :
  (success (a v) = false -> issues_of (a v) <> []) ->
  success (optional a v) = false -> issues_of (optional a v) <> [].
Proof.
  unfold optional. destruct v; simpl; try discriminate;
    match goal with
    | |- context [a ?w] => destruct (a w) as [x | x i | i]; simpl; auto
    end.
Qed.

Lemma told_union {A B} (a : Schema A) (b : Schema B) (v : value) :
  (success (a v) = false -> issues_of (a v) <> []) ->
  (success (b v) = false -> issues_of (b v) <> []) ->
  success (union a b v) = false -> issues_of (union a b v) <> [].
Proof.
  unfold union.
  destruct (a v) as [x | x i | i], (b v) as [y | y j | j]; simpl; auto;
    congruence.
Qed.

Lemma told_number_int (msg : string) (v : value) :
  success (number_int msg v) = false -> issues_of (number_int msg v) <> [].
Proof.
  unfold number_int. destruct v; try (intros _; apply told_invalid_type).
  destruct n; simpl; try congruence;
    match goal with
    | |- context [if ?c then _ else _] => destruct c; simpl; congruence
    end.
Qed.

Lemma told_literal_empty (v : value) :
  success (literal_empty v) = false -> issues_of (literal_empty v) <> [].
Proof.
  unfold literal_empty. destruct v; simpl; try congruence.
  destruct s; simpl; congruence.
Qed.

Lemma told_mergeArray {A} (rs : list (ParseReturn A)) :
  Forall (fun r => success r = false -> issues_of r <> []) rs ->
  success (mergeArray rs) = false -> issues_of (mergeArray rs) <> [].
Proof.
  induction 1 as [| r rs Hr _ IH]; simpl; [discriminate |].
  destruct r as [x | x i | i]; simpl in Hr.
  - destruct (mergeArray rs) as [xs | xs j | j]; simpl in *;
      [discriminate | auto | auto].
  - destruct (mergeArray rs) as [xs | xs j | j]; simpl in *;
      [auto | |];
      intros _ E; apply app_eq_nil in E; destruct E as [E1 E2];
      apply Hr in E1; auto.
  - simpl. intros _ E. apply app_eq_nil in E. destruct E as [E _].
    exact (Hr eq_refl E).
Qed.

Lemma told_services (v : value) :
  success (services_schema v) = false -> issues_of (services_schema v) <> [].
Proof.
  unfold services_schema, array_min.
  destruct v; try (intros _; apply told_invalid_type).
  assert (Hm : success (mergeArray (map (string_ []) l)) = false ->
               issues_of (mergeArray (map (string_ []) l)) <> []).
  { apply told_mergeArray. apply Forall_forall. intros r Hr.
    apply in_map_iff in Hr. destruct Hr as (w & <- & _). apply told_string. }
  cbv zeta.
  destruct (mergeArray (map (string_ []) l)) as [xs | xs j | j]; simpl in Hm.
  - apply told_with_issues.
  - simpl. intros _ E. apply app_eq_nil in E. destruct E as [_ E].
    exact (Hm eq_refl E).
  - simpl. intros _ E. apply app_eq_nil in E. destruct E as [_ E].
    exact (Hm eq_refl E).
Qed.

Lemma told_budgetUsd (v : value) :
  success (budgetUsd_schema v) = false -> issues_of (budgetUsd_schema v) <> [].
Proof.
  unfold budgetUsd_schema.
  apply told_transform, told_refine, told_optional, told_union.
  - apply told_number_int.
  - apply told_literal_empty.
Qed.

Lemma told_projectStartDate (h : Host) (now : Z) (v : value) :
  success (projectStartDate_schema h now v) = false ->
  issues_of (projectStartDate_schema h now v) <> [].
Proof.
  unfold projectStartDate_schema. apply told_refine, told_string.
Qed.

Lemma told_acceptTerms (v : value) :
  success (acceptTerms_schema v) = false ->
  issues_of (acceptTerms_schema v) <> [].
Proof.
  unfold acceptTerms_schema. apply told_refine. unfold boolean.
  destruct v; simpl; congruence.
Qed.

Lemma told_field {A B} (f : ParseReturn (A -> B)) (x : ParseReturn A) :
  (success f = false -> issues_of f <> []) ->
  (success x = false -> issues_of x <> []) ->
  success (field f x) = false -> issues_of (field f x) <> [].
Proof.
  destruct f as [g | g i | i], x as [a | a j | j]; simpl;
    intros Hf Hx Hs E; try discriminate;
    try (apply app_eq_nil in E; destruct E as [E1 E2]);
    first [ exact (Hf eq_refl E) | exact (Hx eq_refl E)
          | exact (Hf eq_refl E1) | exact (Hx eq_refl E2) ].
Qed.

Lemma told_formSchema (h : Host) (now : Z) (v : Form.t) :
  success (formSchema h now v) = false -> issues_of (formSchema h now v) <> [].
Proof.
  unfold formSchema.
  repeat apply told_field; try discriminate.
  - apply told_string.
  - apply told_string.
  - apply told_string.
  - apply told_services.
  - apply told_budgetUsd.
  - apply told_projectStartDate.
  - apply told_acceptTerms.
Qed.

(** [X2] Every field is validated and the messages of all of them are
    reported together, in the order of the fields; a form that is not
    valid has a message at least, a valid one none. *)
Theorem formSchema_collects_issues (h : Host) (now : Z) (v : Form.t) :
  issues_of (formSchema h now v)
  = issues_of (fullName_schema (Form.fullName v))
    ++ issues_of (email_schema h (Form.email v))
    ++ issues_of (companyName_schema (Form.companyName v))
    ++ issues_of (services_schema (Form.services v))
    ++ issues_of (budgetUsd_schema (Form.budgetUsd v))
    ++ issues_of (projectStartDate_schema h now (Form.projectStartDate v))
    ++ issues_of (acceptTerms_schema (Form.acceptTerms v))
  /\ (success (formSchema h now v) = true <->
      issues_of (formSchema h now v) = []).
Proof.
  split; [apply formSchema_issues_fields |].
  split.
  - destruct (formSchema h now v); simpl; congruence.
  - intros E. destruct (success (formSchema h now v)) eqn:Hs; [reflexivity |].
    apply told_formSchema in Hs. contradiction.
Qed.

(** [X3] With no service selected the form is rejected and the message
    asking for a service is among those reported, whatever the other
    fields hold. *)
Theorem no_service_selected (h : Host) (now : Z) (v : Form.t) :
  Form.services v = VArray [] ->
  success (formSchema h now v) = false
  /\ In "Please select at least one service."
        (issues_of (formSchema h now v)).
Proof.
  intros Hs. split.
  - destruct (formSchema h now v) as [data | d i | i] eqn:Hf; try reflexivity.
    apply formSchema_OK in Hf. destruct Hf as (_ & _ & _ & H & _).
    rewrite Hs in H. discriminate.
  - rewrite formSchema_issues_fields, Hs.
    apply in_or_app. right. apply in_or_app. right. apply in_or_app. right.
    apply in_or_app. left. simpl. auto.
Qed.

Lemma no_service_selected_witness :
  success (formSchema host_utc noon_2025_01_15
             (form_of (VArray []) (VString []) (VString (js "2025-01-15"))))
  = false
  /\ In "Please select at least one service."
        (issues_of (formSchema host_utc noon_2025_01_15
                      (form_of (VArray []) (VString [])
                         (VString (js "2025-01-15"))))).
Proof.
  apply (no_service_selected host_utc noon_2025_01_15
           (form_of (VArray []) (VString []) (VString (js "2025-01-15")))).
  reflexivity.
Defined.

(* ================================================================== *)
(** ** More of the submit lifecycle *)
(* ================================================================== *)

(** The three ways [handleSubmit] goes: the form is not valid and
    [onSubmit] is not called; it is called and ends at once with an
    error; it is called and suspends on its request. *)
Lemma handleSubmit_cases (h : Host) (now : Z) (s : State) :
  (success (formSchema h now (values s)) = false
   /\ handleSubmit h now s
      = (setErrors (issues_of (formSchema h now (values s))) s, None))
  \/ (exists data m,
         formSchema h now (values s) = OK data
         /\ (m = config_error \/ m = network_error)
         /\ handleSubmit h now s
            = ({| isSubmitting := false;
                  isSubmitted := false;
                  submissionError := Some m;
                  submittedData := submittedData s;
                  values := values s;
                  errors := [] |}, None))
  \/ (exists data c url payload,
         formSchema h now (values s) = OK data
         /\ NEXT_PUBLIC_ONBOARD_URL h = Some (c :: url)
         /\ make_payload h data = Some payload
         /\ handleSubmit h now s
            = ({| isSubmitting := true;
                  isSubmitted := false;
                  submissionError := None;
                  submittedData := submittedData s;
                  values := values s;
                  errors := [] |},
               Some (post (c :: url) payload, payload))).
Proof.
  unfold handleSubmit.
  destruct (formSchema h now (values s)) as [data | d i | i] eqn:Hf.
  - right. unfold onSubmit_begin.
    destruct (NEXT_PUBLIC_ONBOARD_URL h) as [[| c url] |] eqn:Hurl.
    + left. exists data, config_error. auto.
    + destruct (make_payload h data) as [payload |] eqn:Hp.
      * right. exists data, c, url, payload. auto.
      * left. exists data, network_error. auto.
    + left. exists data, config_error. auto.
  - left. auto.
  - left. auto.
Qed.

(** [X4] A submit of a form that is not valid calls nothing: the
    messages of the validation become the errors of the form, there is
    one at least, and the indicators, the values and the requests are as
    they were. *)
Theorem invalid_form_not_submitted (h : Host) (sys sys' : Sys) (now : Z) :
  step h sys (Submit now) = Some sys' ->
  success (formSchema h now (values (ui sys))) = false ->
  ui sys' = setErrors (issues_of (formSchema h now (values (ui sys)))) (ui sys)
  /\ errors (ui sys') <> []
  /\ sent sys' = sent sys
  /\ pending sys' = pending sys
  /\ attempts sys' = attempts sys.
Proof.
  intros Hstep Hs. unfold step in Hstep.
  destruct (isSubmitting (ui sys)); [discriminate |].
  destruct (handleSubmit_cases h now (ui sys))
    as [[_ Hh] | [(data & m & Hf & _) | (data & c & url & p & Hf & _)]].
  - rewrite Hh, Hs in Hstep. inversion Hstep. subst sys'. cbn.
    repeat split; trivial. apply told_formSchema. exact Hs.
  - rewrite Hf in Hs. discriminate.
  - rewrite Hf in Hs. discriminate.
Qed.

Lemma invalid_form_not_submitted_witness :
  exists sys',
    step host_utc start (Submit noon_2025_01_15) = Some sys'
    /\ errors (ui sys') <> []
    /\ sent sys' = []
    /\ pending sys' = [].
Proof.
  eexists. split; [vm_compute; reflexivity |].
  pose proof (invalid_form_not_submitted host_utc start _
                noon_2025_01_15 eq_refl eq_refl) as (_ & He & Hs & Hp & _).
  exact (conj He (conj Hs Hp)).
Defined.

(** [X5] When [fetch] rejects, the call ends in the failed state with
    the network message, after its one request; the values of the form
    and the data last submitted are those it started with. *)
Theorem transport_fault_keeps_form (h : Host) (fetch : Request.t -> settled)
  (data payload : Data.t) (s : State) (c : Z) (url : jsstring) :
  NEXT_PUBLIC_ONBOARD_URL h = Some (c :: url) ->
  make_payload h data = Some payload ->
  fetch (post (c :: url) payload) = Rejected ->
  onSubmit h fetch data s
  = ({| isSubmitting := false;
        isSubmitted := false;
        submissionError := Some network_error;
        submittedData := submittedData s;
        values := values s;
        errors := errors s |}, [post (c :: url) payload]).
Proof.
  intros Hurl Hp Hf. unfold onSubmit, onSubmit_begin.
  rewrite Hurl, Hp, Hf. reflexivity.
Qed.

Lemma transport_fault_keeps_form_witness :
  onSubmit host_utc (fun _ => Rejected) jane_data (setValues jane initial)
  = ({| isSubmitting := false;
        isSubmitted := false;
        submissionError := Some network_error;
        submittedData := None;
        values := jane;
        errors := [] |}, [post endpoint jane_data]).
Proof.
  apply (transport_fault_keeps_form host_utc (fun _ => Rejected) jane_data
           jane_data (setValues jane initial) 104 (List.tl endpoint));
    reflexivity.
Defined.

(** [X6] Called with a start date that does not parse, [onSubmit] ends
    with the network message although it has sent no request:
    [toISOString] throws inside the [try]. *)
Theorem unparseable_date_is_a_network_error (h : Host)
  (fetch : Request.t -> settled) (data : Data.t) (s : State)
  (c : Z) (url : jsstring) :
  NEXT_PUBLIC_ONBOARD_URL h = Some (c :: url) ->
  Date.parse (Date_parse_other h) (Data.projectStartDate data) = None ->
  onSubmit h fetch data s
  = ({| isSubmitting := false;
        isSubmitted := false;
        submissionError := Some network_error;
        submittedData := submittedData s;
        values := values s;
        errors := errors s |}, []).
Proof.
  intros Hurl Hp. unfold onSubmit, onSubmit_begin, make_payload.
  rewrite Hurl, Hp. reflexivity.
Qed.

Lemma unparseable_date_is_a_network_error_witness :
  onSubmit host_utc (answer 200 JNull) with_bad_date initial
  = ({| isSubmitting := false;
        isSubmitted := false;
        submissionError := Some network_error;
        submittedData := None;
        values := defaultValues;
        errors := [] |}, []).
Proof.
  apply (unparseable_date_is_a_network_error host_utc (answer 200 JNull)
           with_bad_date initial 104 (List.tl endpoint)); reflexivity.
Defined.

(** *** The requests the page sends *)

Lemma Forall_remove_nth {A} (P : A -> Prop) (k : nat) (l : list A) :
  Forall P l -> Forall P (remove_nth k l).
Proof.
  revert k. induction l as [| x l IH]; intros k H; destruct k; simpl;
    try constructor; inversion H; subst; auto.
Qed.

Lemma onSubmit_resume_cases (outcome : settled) (payload : Data.t) (s : State) :
  onSubmit_resume outcome payload s
  = {| isSubmitting := false;
       isSubmitted := true;
       submissionError := submissionError s;
       submittedData := Some payload;
       values := defaultValues;
       errors := [] |}
  \/ (exists m,
         (m = network_error \/ exists status, m = api_error status)
         /\ onSubmit_resume outcome payload s
            = {| isSubmitting := false;
                 isSubmitted := isSubmitted s;
                 submissionError := Some m;
                 submittedData := submittedData s;
                 values := values s;
                 errors := errors s |}).
Proof.
  unfold onSubmit_resume.
  destruct outcome as [r |]; [destruct (Response.ok r) |].
  - left. reflexivity.
  - right. eexists. split; [right; eexists; reflexivity | reflexivity].
  - right. eexists. split; [left; reflexivity | reflexivity].
Qed.

Lemma requests_kept_init (h : Host) (p : option jsstring) (sys : Sys) :
  init h p = Some sys -> requests_kept h sys.
Proof.
  intros H. destruct (init_cases h p sys H) as (Hp & Hs & Ha & Hu).
  assert (Hd : submittedData (ui sys) = None /\ isSubmitted (ui sys) = false).
  { destruct Hu as [-> | (d & _ & ->)]; auto. }
  destruct Hd as [Hd Hi].
  unfold requests_kept. rewrite Hp, Hs, Ha, Hd, Hi.
  repeat split; try constructor; try discriminate.
Qed.

Lemma requests_kept_step (h : Host) (sys sys' : Sys) (ev : event) :
  requests_kept h sys -> step h sys ev = Some sys' -> requests_kept h sys'.
Proof.
  intros (Hsent & Hpend & Hdata & Hshown & Hlen) Hstep.
  destruct ev as [i | label checked | now | k outcome]; unfold step in Hstep.
  - destruct (isSubmitting (ui sys)); [discriminate |].
    inversion Hstep. subst sys'. unfold requests_kept. cbn. auto.
  - destruct (includes SERVICE_OPTIONS label); [| discriminate].
    inversion Hstep. subst sys'. unfold requests_kept. cbn. auto.
  - destruct (isSubmitting (ui sys)); [discriminate |].
    destruct (handleSubmit_cases h now (ui sys))
      as [[Hs Hh] | [(data & m & Hf & _ & Hh)
                    | (data & c & url & p & Hf & Hurl & Hp & Hh)]];
      rewrite Hh in Hstep; inversion Hstep; subst sys'; clear Hstep Hh;
      unfold requests_kept; cbn [ui sent pending attempts submittedData
                                   isSubmitted setErrors].
    + rewrite Hs. auto.
    + rewrite Hf. cbn [success].
      split; [exact Hsent |]. split; [exact Hpend |].
      split; [exact Hdata |]. split; [discriminate | lia].
    + assert (Hreq : from_valid_form h (post (c :: url) p) p).
      { exists c, url, now, (values (ui sys)), data. auto. }
      split; [| split; [| split; [| split]]].
      * apply Forall_app. split; [exact Hsent |]. constructor; eauto.
      * apply Forall_app. split.
        -- eapply Forall_impl; [| exact Hpend]. intros rp [Hin Hv].
           split; [apply in_or_app; auto | exact Hv].
        -- constructor; [| constructor]. cbn [fst snd].
           split; [apply in_or_app; right; left; reflexivity | exact Hreq].
      * intros d Hd. destruct (Hdata d Hd) as (req & Hin & Hv).
        exists req. split; [apply in_or_app; auto | exact Hv].
      * discriminate.
      * rewrite length_app. simpl. lia.
  - destruct (nth_error (pending sys) k) as [[req payload] |] eqn:Hk;
      [| discriminate].
    inversion Hstep. subst sys'. clear Hstep.
    apply nth_error_In in Hk.
    pose proof (proj1 (Forall_forall _ _) Hpend _ Hk) as [Hin Hv].
    cbn [fst snd] in Hin, Hv.
    unfold requests_kept. cbn [ui sent pending attempts].
    split; [exact Hsent |].
    split; [apply Forall_remove_nth; exact Hpend |].
    destruct (onSubmit_resume_cases outcome payload (ui sys))
      as [-> | (m & _ & ->)]; cbn [submittedData isSubmitted].
    + split; [| split; [discriminate | exact Hlen]].
      intros d Hd. inversion Hd. subst d. eauto.
    + auto.
Qed.

Lemma requests_kept_reachable (h : Host) (sys : Sys) :
  reachable h sys -> requests_kept h sys.
Proof.
  induction 1 as [p sys Hinit | sys ev sys' _ IH Hstep].
  - eapply requests_kept_init; eauto.
  - eapply requests_kept_step; eauto.
Qed.

(** [X7] Whatever the user does, every request the page has sent is a
    POST to the configured endpoint, with the JSON content type, of the
    payload of values that passed validation, the terms accepted; and
    no call of [onSubmit] sends more than one. *)
Theorem only_valid_forms_are_sent (h : Host) (sys : Sys) :
  reachable h sys ->
  Forall (fun req =>
            Request.method req = "POST"
            /\ Request.headers req = [("Content-Type", "application/json")]
            /\ NEXT_PUBLIC_ONBOARD_URL h = Some (Request.url req)
            /\ exists now v data payload,
                 formSchema h now v = OK data
                 /\ make_payload h data = Some payload
                 /\ Data.acceptTerms payload = true
                 /\ Request.body req = JSON_stringify payload)
         (sent sys)
  /\ (List.length (sent sys) <= attempts sys)%nat.
Proof.
  intros Hr. apply requests_kept_reachable in Hr.
  destruct Hr as (Hsent & _ & _ & _ & Hlen). split; [| exact Hlen].
  eapply Forall_impl; [| exact Hsent].
  intros req (payload & c & url & now & v & data & Hurl & Hf & Hp & ->).
  cbn. repeat split; trivial.
  exists now, v, data, payload. repeat split; trivial.
  destruct (validated h now v data Hf) as (_ & _ & Ht).
  unfold make_payload in Hp.
  destruct (Date.toISOString _); [| discriminate].
  inversion Hp. cbn. exact Ht.
Qed.

Lemma only_valid_forms_are_sent_witness :
  exists sys,
    run host_utc start (fill_in_and_submit noon_2025_01_15)
    = Some sys
    /\ sent sys = [post endpoint jane_data]
    /\ Forall (fun req =>
                 Request.method req = "POST"
                 /\ Request.headers req
                    = [("Content-Type", "application/json")]
                 /\ NEXT_PUBLIC_ONBOARD_URL host_utc = Some (Request.url req)
                 /\ exists now v data payload,
                      formSchema host_utc now v = OK data
                      /\ make_payload host_utc data = Some payload
                      /\ Data.acceptTerms payload = true
                      /\ Request.body req = JSON_stringify payload)
              (sent sys)
    /\ (List.length (sent sys) <= attempts sys)%nat.
Proof.
  eexists. split; [vm_compute; reflexivity |].
  split; [reflexivity |].
  apply (only_valid_forms_are_sent host_utc).
  apply (reachable_run host_utc (fill_in_and_submit noon_2025_01_15)
           start); [apply (reachable_init host_utc None); reflexivity |].
  vm_compute. reflexivity.
Defined.

(** *** The alerts *)

Lemma known_error_reachable (h : Host) (sys : Sys) :
  reachable h sys ->
  forall m, submissionError (ui sys) = Some m -> known_error m.
Proof.
  induction 1 as [p sys Hinit | sys ev sys' _ IH Hstep]; intros m Hm.
  - destruct (init_cases h p sys Hinit) as (_ & _ & _ & [E | (d & _ & E)]);
      rewrite E in Hm; discriminate.
  - destruct ev as [i | label checked | now | k outcome]; unfold step in Hstep.
    + destruct (isSubmitting (ui sys)); [discriminate |].
      inversion Hstep. subst sys'. apply IH. exact Hm.
    + destruct (includes SERVICE_OPTIONS label); [| discriminate].
      inversion Hstep. subst sys'. apply IH. exact Hm.
    + destruct (isSubmitting (ui sys)); [discriminate |].
      destruct (handleSubmit_cases h now (ui sys))
        as [[Hs Hh] | [(data & m' & Hf & Hk & Hh)
                      | (data & c & url & p & Hf & Hurl & Hp & Hh)]];
        rewrite Hh in Hstep; inversion Hstep; subst sys'; cbn in Hm.
      * apply IH. exact Hm.
      * inversion Hm. subst m'. unfold known_error. tauto.
      * discriminate.
    + destruct (nth_error (pending sys) k) as [[req payload] |];
        [| discriminate].
      inversion Hstep. subst sys'. cbn [ui] in Hm.
      destruct (onSubmit_resume_cases outcome payload (ui sys))
        as [E | (m' & Hk & E)]; rewrite E in Hm; cbn in Hm.
      * apply IH. exact Hm.
      * inversion Hm. subst m'. unfold known_error. tauto.
Qed.

Lemma known_error_shows (s : State) (m : string) :
  submissionError s = Some m -> known_error m -> error_alert s = Shows m.
Proof.
  intros Hm Hk. unfold error_alert. rewrite Hm.
  destruct Hk as [-> | [-> | [status ->]]]; reflexivity.
Qed.

(** [X8] Rendering the success alert never reads a property of [null]:
    whenever [isSubmitted] is set there is submitted data; and what the
    alert shows are the name, the e-mail, the services joined by commas
    and the start date of a payload the page has sent. *)
Theorem success_alert_shows_sent_data (h : Host) (sys : Sys) :
  reachable h sys ->
  success_alert (ui sys) <> Throws
  /\ (forall a, success_alert (ui sys) = Shows a ->
        exists req d,
          In req (sent sys)
          /\ Request.body req = JSON_stringify d
          /\ a = {| shown_fullName := Data.fullName d;
                    shown_email := Data.email d;
                    shown_services := join (js ", ") (Data.services d);
                    shown_projectStart := Data.projectStartDate d |}).
Proof.
  intros Hr. apply requests_kept_reachable in Hr.
  destruct Hr as (_ & _ & Hdata & Hshown & _).
  unfold success_alert.
  destruct (isSubmitted (ui sys)); [| split; [discriminate | discriminate]].
  destruct (submittedData (ui sys)) as [d |] eqn:Hd.
  - split; [discriminate |]. intros a Ha. inversion Ha.
    destruct (Hdata d eq_refl)
      as (req & Hin & c & url & now & v & data & _ & _ & _ & ->).
    exists (post (c :: url) d), d. auto.
  - exfalso. apply Hshown; reflexivity.
Qed.

Lemma success_alert_shows_sent_data_witness :
  exists sys,
    run host_utc start
      (fill_in_and_submit noon_2025_01_15
       ++ [Settle 0 (Fulfilled {| Response.status := 201;
                                  Response.body := JNull |})])
    = Some sys
    /\ success_alert (ui sys)
       = Shows {| shown_fullName := js "Jane O'Brien";
                  shown_email := js "jane@example.com";
                  shown_services := js "Branding";
                  shown_projectStart := js "2025-01-15" |}
    /\ success_alert (ui sys) <> Throws
    /\ (forall a, success_alert (ui sys) = Shows a ->
          exists req d,
            In req (sent sys)
            /\ Request.body req = JSON_stringify d
            /\ a = {| shown_fullName := Data.fullName d;
                      shown_email := Data.email d;
                      shown_services := join (js ", ") (Data.services d);
                      shown_projectStart := Data.projectStartDate d |}).
Proof.
  eexists. split; [vm_compute; reflexivity |].
  split; [reflexivity |].
  apply (success_alert_shows_sent_data host_utc).
  apply (reachable_run host_utc
           (fill_in_and_submit noon_2025_01_15
            ++ [Settle 0 (Fulfilled {| Response.status := 201;
                                       Response.body := JNull |})])
           start); [apply (reachable_init host_utc None); reflexivity |].
  vm_compute. reflexivity.
Defined.

(** [X9] The error alert, when there is an error, shows it, and it is
    the configuration message, the network message or the message of an
    HTTP status; once a call of [onSubmit] has been made and none is
    outstanding, exactly one of the two alerts is shown. *)
Theorem one_alert_after_an_attempt (h : Host) (sys : Sys) :
  reachable h sys ->
  (forall m, submissionError (ui sys) = Some m ->
             known_error m /\ error_alert (ui sys) = Shows m)
  /\ (pending sys = [] -> (0 < attempts sys)%nat ->
      (exists a, success_alert (ui sys) = Shows a
                 /\ error_alert (ui sys) = Nothing)
      \/ (exists m, success_alert (ui sys) = Nothing
                    /\ error_alert (ui sys) = Shows m)).
Proof.
  intros Hr.
  pose proof (known_error_reachable h sys Hr) as Hk.
  pose proof (lifecycle_reachable h sys Hr) as (_ & _ & _ & Hone).
  pose proof (requests_kept_reachable h sys Hr) as (_ & _ & _ & Hshown & _).
  split.
  - intros m Hm. split; [auto |]. apply known_error_shows; auto.
  - intros Hp Ha. destruct (Hone Hp Ha) as [[Hs He] | [Hs [m He]]].
    + left. unfold success_alert, error_alert. rewrite Hs, He.
      destruct (submittedData (ui sys)) as [d |] eqn:Hd.
      * eexists. split; reflexivity.
      * exfalso. apply Hshown; auto.
    + right. exists m. split.
      * unfold success_alert. rewrite Hs. reflexivity.
      * apply known_error_shows; auto.
Qed.

Lemma one_alert_after_an_attempt_witness :
  exists sys,
    run host_utc start
      (fill_in_and_submit noon_2025_01_15
       ++ [Settle 0 (Fulfilled {| Response.status := 503;
                                  Response.body := JNull |})])
    = Some sys
    /\ error_alert (ui sys) = Shows "API Error: 503 - An error occurred."
    /\ (forall m, submissionError (ui sys) = Some m ->
                  known_error m /\ error_alert (ui sys) = Shows m)
    /\ (pending sys = [] -> (0 < attempts sys)%nat ->
        (exists a, success_alert (ui sys) = Shows a
                   /\ error_alert (ui sys) = Nothing)
        \/ (exists m, success_alert (ui sys) = Nothing
                      /\ error_alert (ui sys) = Shows m)).
Proof.
  eexists. split; [vm_compute; reflexivity |].
  split; [reflexivity |].
  apply (one_alert_after_an_attempt host_utc).
  apply (reachable_run host_utc
           (fill_in_and_submit noon_2025_01_15
            ++ [Settle 0 (Fulfilled {| Response.status := 503;
                                       Response.body := JNull |})])
           start); [apply (reachable_init host_utc None); reflexivity |].
  vm_compute. reflexivity.
Defined.

(* ================================================================== *)
(** ** The service checkboxes and the pre-fill *)
(* ================================================================== *)

Lemma jsstring_eqb_refl (s : jsstring) : jsstring_eqb s s = true.
Proof. apply jsstring_eqb_eq. reflexivity. Qed.

Lemma jsstring_eqb_neq (a b : jsstring) : a <> b -> jsstring_eqb a b = false.
Proof.
  intros H. destruct (jsstring_eqb a b) eqn:E; [| reflexivity].
  apply jsstring_eqb_eq in E. contradiction.
Qed.

Lemma existsb_filter_keeps {A} (f g : A -> bool) (l : list A) :
  (forall x, f x = true -> g x = true) ->
  existsb f (filter g l) = existsb f l.
Proof.
  intros H. induction l as [| x l IH]; simpl; [reflexivity |].
  destruct (g x) eqn:Hg; simpl; rewrite IH; [reflexivity |].
  destruct (f x) eqn:Hf; [| reflexivity].
  apply H in Hf. congruence.
Qed.

Lemma filter_all {A} (g : A -> bool) (l : list A) :
  existsb (fun x => negb (g x)) l = false -> filter g l = l.
Proof.
  induction l as [| x l IH]; simpl; [reflexivity |].
  intros H. apply orb_false_iff in H. destruct H as [Hx Hl].
  apply negb_false_iff in Hx. rewrite Hx, (IH Hl). reflexivity.
Qed.

Lemma existsb_filter_out {A} (g : A -> bool) (l : list A) :
  existsb (fun x => negb (g x)) (filter g l) = false.
Proof.
  induction l as [| x l IH]; simpl; [reflexivity |].
  destruct (g x) eqn:Hg; simpl; [rewrite Hg |]; exact IH.
Qed.

(** [X10] Ticking a box leaves it ticked and unticking leaves it
    unticked, whatever the list held; neither changes the state of
    another box; and ticking a box that was not ticked, then unticking
    it, gives the list back. *)
Theorem checkbox_toggles (label : jsstring) (l : list value) :
  checkbox_checked label (newServices label true (VArray l)) = true
  /\ checkbox_checked label (newServices label false (VArray l)) = false
  /\ (forall (other : jsstring) (checked : bool),
         other <> label ->
         checkbox_checked other (newServices label checked (VArray l))
         = checkbox_checked other (VArray l))
  /\ (checkbox_checked label (VArray l) = false ->
      newServices label false (newServices label true (VArray l)) = VArray l).
Proof.
  unfold checkbox_checked, newServices. split; [| split; [| split]].
  - rewrite existsb_app. simpl. rewrite jsstring_eqb_refl. simpl.
    apply orb_true_r.
  - apply existsb_filter_out.
  - intros other checked Hne. destruct checked.
    + rewrite existsb_app. simpl.
      rewrite (jsstring_eqb_neq label other) by congruence. simpl.
      rewrite !orb_false_r. reflexivity.
    + apply existsb_filter_keeps. intros [] Hx; try reflexivity.
      simpl in Hx. apply negb_true_iff, negb_false_iff in Hx.
      apply jsstring_eqb_eq in Hx. subst s. simpl.
      rewrite (jsstring_eqb_neq other label Hne). reflexivity.
  - intros H. rewrite filter_app. simpl. rewrite jsstring_eqb_refl. simpl.
    rewrite app_nil_r, (filter_all _ _ H). reflexivity.
Qed.

Lemma checkbox_toggles_witness :
  checkbox_checked (js "Web Dev") (VArray [VString (js "Branding")]) = false
  /\ newServices (js "Web Dev") false
       (newServices (js "Web Dev") true (VArray [VString (js "Branding")]))
     = VArray [VString (js "Branding")]
  /\ checkbox_checked (js "Branding")
       (newServices (js "Web Dev") true (VArray [VString (js "Branding")]))
     = checkbox_checked (js "Branding") (VArray [VString (js "Branding")]).
Proof.
  pose proof (checkbox_toggles (js "Web Dev") [VString (js "Branding")])
    as (_ & _ & Hother & Hback).
  split; [reflexivity |]. split.
  - apply Hback. reflexivity.
  - apply Hother. vm_compute. discriminate.
Defined.

(** [X11] A [service] parameter that decodes to one of the four
    options mounts the page with that option selected and no other,
    which satisfies the rule of the services field; an absent or empty
    parameter, or one that decodes to something else, mounts the page in
    its initial state; a parameter [decodeURIComponent] throws on makes
    the effect throw, and no page is mounted.  A mounted page has
    nothing sent or pending. *)
Theorem prefill_selects_one_option (h : Host) (p : option jsstring) :
  (forall raw d,
      p = Some raw -> raw <> [] ->
      decodeURIComponent h raw = Some d -> In d SERVICE_OPTIONS ->
      exists sys,
        init h p = Some sys
        /\ ui sys = setServices (VArray [VString d]) initial
        /\ pending sys = [] /\ sent sys = []
        /\ services_schema (Form.services (values (ui sys))) = OK [d]
        /\ forall label,
             checkbox_checked label (Form.services (values (ui sys)))
             = jsstring_eqb d label)
  /\ ((p = None \/ p = Some []
       \/ (exists raw d, p = Some raw /\ decodeURIComponent h raw = Some d
                         /\ ~ In d SERVICE_OPTIONS)) ->
      init h p = Some start)
  /\ (forall raw,
         p = Some raw -> raw <> [] -> decodeURIComponent h raw = None ->
         init h p = None).
Proof.
  split; [| split].
  - intros raw d -> Hne Hd Hin. unfold init, prefill.
    destruct raw as [| c raw]; [congruence |].
    rewrite Hd, (proj2 (includes_In SERVICE_OPTIONS d) Hin).
    eexists. split; [reflexivity |]. cbn [ui pending sent].
    split; [reflexivity |]. split; [reflexivity |]. split; [reflexivity |].
    split; [reflexivity |].
    intros label. cbn. rewrite orb_false_r, negb_involutive. reflexivity.
  - unfold init, prefill.
    intros [-> | [-> | (raw & d & -> & Hd & Hn)]]; try reflexivity.
    destruct raw; [reflexivity |]. rewrite Hd.
    destruct (includes SERVICE_OPTIONS d) eqn:Hi; [| reflexivity].
    apply includes_In in Hi. contradiction.
  - intros raw -> Hne Hd. unfold init, prefill.
    destruct raw as [| c raw]; [congruence |]. rewrite Hd. reflexivity.
Qed.

Lemma prefill_selects_one_option_witness :
  (exists sys,
      init host_decoding (Some (js "Web Dev")) = Some sys
      /\ ui sys = setServices (VArray [VString (js "Web Dev")]) initial
      /\ services_schema (Form.services (values (ui sys)))
         = OK [js "Web Dev"])
  /\ init host_decoding (Some (js "Consulting")) = Some start
  /\ init host_decoding (Some (js "100%")) = None.
Proof.
  pose proof (prefill_selects_one_option host_decoding (Some (js "Web Dev")))
    as (Hyes & _ & _).
  pose proof (prefill_selects_one_option host_decoding
                (Some (js "Consulting"))) as (_ & Hno & _).
  pose proof (prefill_selects_one_option host_decoding (Some (js "100%")))
    as (_ & _ & Hthrow).
  split; [| split].
  - destruct (Hyes (js "Web Dev") (js "Web Dev") eq_refl)
      as (sys & H1 & H2 & _ & _ & H3 & _).
    + vm_compute. discriminate.
    + reflexivity.
    + vm_compute. tauto.
    + exists sys. auto.
  - apply Hno. right. right.
    exists (js "Consulting"), (js "Consulting").
    split; [reflexivity |]. split; [reflexivity |].
    intros Hin. apply includes_In in Hin. vm_compute in Hin. discriminate.
  - apply (Hthrow (js "100%")).
    + reflexivity.
    + vm_compute. discriminate.
    + reflexivity.
Defined.

(** *** After a success *)

Lemma defaultValues_rejected (h : Host) (now : Z) :
  success (formSchema h now defaultValues) = false.
Proof.
  destruct (formSchema h now defaultValues) as [data | d i | i] eqn:Hf;
    try reflexivity.
  apply formSchema_OK in Hf. destruct Hf as (Hn & _).
  apply fullName_OK in Hn. destruct Hn as (Hv & Hlen & _).
  cbn in Hv. inversion Hv as [E]. rewrite <- E in Hlen.
  unfold JS.length in Hlen. simpl in Hlen. lia.
Qed.

(** [X12] After a 2xx answer the form is back at its defaults, which
    are not valid: a submit right after it sends nothing and reports the
    errors of the empty form, the success state staying as it is. *)
Theorem resubmit_after_success_sends_nothing (h : Host) (sys sys1 sys2 : Sys)
  (k : nat) (r : Response.t) (now : Z) :
  step h sys (Settle k (Fulfilled r)) = Some sys1 ->
  Response.ok r = true ->
  step h sys1 (Submit now) = Some sys2 ->
  values (ui sys1) = defaultValues
  /\ sent sys2 = sent sys1
  /\ pending sys2 = pending sys1
  /\ errors (ui sys2) <> []
  /\ isSubmitted (ui sys2) = true
  /\ submittedData (ui sys2) = submittedData (ui sys1).
Proof.
  intros H1 Hok H2. unfold step in H1.
  destruct (nth_error (pending sys) k) as [[req payload] |]; [| discriminate].
  injection H1 as <-. unfold step in H2. cbn [ui pending sent attempts] in *.
  unfold onSubmit_resume in *. rewrite Hok in *.
  cbn [reset setErrors setValues setSubmittedData setIsSubmitted
         setIsSubmitting isSubmitting isSubmitted submissionError
         submittedData values errors] in *.
  pose proof (defaultValues_rejected h now) as Hd.
  destruct (handleSubmit_cases h now
              (setIsSubmitting false
                 (reset (setSubmittedData (Some payload)
                           (setIsSubmitted true (ui sys))))))
    as [[_ Hh] | [(data & m & Hf & _) | (data & c & url & p & Hf & _)]];
    cbn [reset setErrors setValues setSubmittedData setIsSubmitted
           setIsSubmitting values] in *.
  - rewrite Hh, Hd in H2. injection H2 as <-. cbn.
    repeat split; trivial. apply told_formSchema. exact Hd.
  - rewrite Hf in Hd. discriminate.
  - rewrite Hf in Hd. discriminate.
Qed.

Lemma resubmit_after_success_sends_nothing_witness :
  exists sys sys1 sys2,
    run host_utc start (fill_in_and_submit noon_2025_01_15)
    = Some sys
    /\ step host_utc sys (Settle 0 (Fulfilled {| Response.status := 200;
                                                 Response.body := JNull |}))
       = Some sys1
    /\ step host_utc sys1 (Submit noon_2025_01_15) = Some sys2
    /\ values (ui sys1) = defaultValues
    /\ sent sys2 = sent sys1
    /\ pending sys2 = pending sys1
    /\ errors (ui sys2) <> []
    /\ isSubmitted (ui sys2) = true
    /\ submittedData (ui sys2) = submittedData (ui sys1).
Proof.
  let s := eval vm_compute in
             (run host_utc start
                (fill_in_and_submit noon_2025_01_15)) in
  match s with
  | Some ?sys =>
      let s1 := eval vm_compute in
                  (step host_utc sys
                     (Settle 0 (Fulfilled {| Response.status := 200;
                                             Response.body := JNull |}))) in
      match s1 with
      | Some ?sys1 =>
          let s2 := eval vm_compute in
                      (step host_utc sys1 (Submit noon_2025_01_15)) in
          match s2 with
          | Some ?sys2 =>
              exists sys, sys1, sys2;
              split; [vm_compute; reflexivity |];
              split; [vm_compute; reflexivity |];
              split; [vm_compute; reflexivity |];
              apply (resubmit_after_success_sends_nothing host_utc sys sys1
                       sys2 0%nat
                       {| Response.status := 200; Response.body := JNull |}
                       noon_2025_01_15);
              vm_compute; reflexivity
          end
      end
  end.
Defined.

(* ================================================================== *)
(** ** The start date, there and back *)
(* ================================================================== *)

Lemma DayFromYear_mono (y y' : Z) :
  y <= y' -> Date.DayFromYear y <= Date.DayFromYear y'.
Proof.
  intros H. unfold Date.DayFromYear. Z.div_mod_to_equations. lia.
Qed.

Lemma YearFromDay_unique (d y : Z) :
  Date.DayFromYear y <= d < Date.DayFromYear (y + 1) ->
  Date.YearFromDay d = y.
Proof.
  intros Hy. pose proof (YearFromDay_spec d) as HY.
  destruct (Z.lt_trichotomy (Date.YearFromDay d) y) as [Hlt | [E | Hgt]].
  - pose proof (DayFromYear_mono (Date.YearFromDay d + 1) y ltac:(lia)). lia.
  - exact E.
  - pose proof (DayFromYear_mono (y + 1) (Date.YearFromDay d) ltac:(lia)). lia.
Qed.

Lemma month_of_day (leap : bool) (m d : Z) :
  0 <= m <= 11 ->
  1 <= d <= Date.DaysBeforeMonth leap (m + 1) - Date.DaysBeforeMonth leap m ->
  0 <= Date.DaysBeforeMonth leap m + d - 1 < (if leap then 366 else 365)
  /\ Date.MonthFromDayWithinYear leap (Date.DaysBeforeMonth leap m + d - 1)
     = m.
Proof.
  intros Hm Hd.
  assert (Hc : m = 0 \/ m = 1 \/ m = 2 \/ m = 3 \/ m = 4 \/ m = 5 \/ m = 6
               \/ m = 7 \/ m = 8 \/ m = 9 \/ m = 10 \/ m = 11) by lia.
  unfold Date.MonthFromDayWithinYear.
  destruct leap;
    repeat (destruct Hc as [-> | Hc]; [
      days_before_month;
      (split; [lia |]);
      repeat match goal with
             | |- context [?a <? ?b] => destruct (Z.ltb_spec a b); try lia
             end; reflexivity |]);
    subst m; days_before_month; (split; [lia |]);
    repeat match goal with
           | |- context [?a <? ?b] => destruct (Z.ltb_spec a b); try lia
           end; reflexivity.
Qed.

(** The day made of a year, a month and a date has that year, month and
    date. *)
Lemma civil_of_MakeDay (y m d : Z) :
  0 <= m <= 11 -> 1 <= d <= Date.DaysInMonth y m ->
  let tv := Date.MakeDate (Date.MakeDay y m d) 0 in
  Date.YearFromTime tv = y
  /\ Date.MonthFromTime tv = m
  /\ Date.DateFromTime tv = d.
Proof.
  intros Hm Hd tv.
  assert (Hday : Date.Day tv = Date.MakeDay y m d).
  { unfold tv, Date.MakeDate, Date.Day, Date.msPerDay.
    rewrite Z.add_0_r. apply Z.div_mul. lia. }
  unfold Date.DaysInMonth in Hd.
  destruct (month_of_day (Date.InLeapYear y) m d Hm Hd) as [Hb Hmo].
  assert (Hy : Date.YearFromTime tv = y).
  { unfold Date.YearFromTime. rewrite Hday. apply YearFromDay_unique.
    rewrite DayFromYear_succ. unfold Date.MakeDay, Date.DaysInYear.
    destruct (Date.InLeapYear y); lia. }
  assert (Hw : Date.DayWithinYear tv
               = Date.DaysBeforeMonth (Date.InLeapYear y) m + d - 1).
  { unfold Date.DayWithinYear. rewrite Hy, Hday. unfold Date.MakeDay. lia. }
  split; [exact Hy |].
  assert (Hmt : Date.MonthFromTime tv = m).
  { unfold Date.MonthFromTime. rewrite Hy, Hw. exact Hmo. }
  split; [exact Hmt |].
  unfold Date.DateFromTime. rewrite Hmt, Hy, Hw. lia.
Qed.

Lemma digit_of (c : Z) : is_digit c = true -> Date.digit c = Some (c - 48).
Proof. unfold is_digit, Date.digit. intros ->. reflexivity. Qed.

Lemma number_of_2 (a b : Z) :
  is_digit a = true -> is_digit b = true ->
  Date.number_of [a; b] = Some (10 * (a - 48) + (b - 48)).
Proof.
  intros Ha Hb. unfold Date.number_of, Date.digits_from.
  rewrite (digit_of a Ha), (digit_of b Hb). f_equal; lia.
Qed.

Lemma number_of_4 (a b c d : Z) :
  is_digit a = true -> is_digit b = true ->
  is_digit c = true -> is_digit d = true ->
  Date.number_of [a; b; c; d]
  = Some (1000 * (a - 48) + 100 * (b - 48) + 10 * (c - 48) + (d - 48)).
Proof.
  intros Ha Hb Hc Hd. unfold Date.number_of, Date.digits_from.
  rewrite (digit_of a Ha), (digit_of b Hb), (digit_of c Hc), (digit_of d Hd).
  f_equal; lia.
Qed.

(** Digits that read as [n] are the digits [pad] writes for [n]. *)
Lemma pad_2_of_digits (a b n : Z) :
  is_digit a = true -> is_digit b = true ->
  Date.number_of [a; b] = Some n -> Date.pad 2 n = [a; b].
Proof.
  intros Ha Hb Hn. rewrite (number_of_2 a b Ha Hb) in Hn.
  pose proof (is_digit_range a Ha). pose proof (is_digit_range b Hb).
  assert (En : 10 * (a - 48) + (b - 48) = n) by congruence.
  assert (Hr : 0 <= n <= 99) by lia.
  destruct (pad_2_shape n Hr) as (a' & b' & E & Ha' & Hb' & Hn').
  rewrite (number_of_2 a' b' Ha' Hb') in Hn'.
  pose proof (is_digit_range a' Ha'). pose proof (is_digit_range b' Hb').
  assert (En' : 10 * (a' - 48) + (b' - 48) = n) by congruence.
  rewrite E.
  assert (a' = a) by lia. assert (b' = b) by lia. subst. reflexivity.
Qed.

Lemma pad_4_of_digits (a b c d n : Z) :
  is_digit a = true -> is_digit b = true ->
  is_digit c = true -> is_digit d = true ->
  Date.number_of [a; b; c; d] = Some n -> Date.pad 4 n = [a; b; c; d].
Proof.
  intros Ha Hb Hc Hd Hn. rewrite (number_of_4 a b c d Ha Hb Hc Hd) in Hn.
  pose proof (is_digit_range a Ha). pose proof (is_digit_range b Hb).
  pose proof (is_digit_range c Hc). pose proof (is_digit_range d Hd).
  assert (En : 1000 * (a - 48) + 100 * (b - 48) + 10 * (c - 48) + (d - 48)
               = n) by congruence.
  assert (Hr : 0 <= n <= 9999) by lia.
  destruct (pad_4_shape n Hr)
    as (a' & b' & c' & d' & E & Ha' & Hb' & Hc' & Hd' & Hn').
  rewrite (number_of_4 a' b' c' d' Ha' Hb' Hc' Hd') in Hn'.
  pose proof (is_digit_range a' Ha'). pose proof (is_digit_range b' Hb').
  pose proof (is_digit_range c' Hc'). pose proof (is_digit_range d' Hd').
  assert (En' : 1000 * (a' - 48) + 100 * (b' - 48) + 10 * (c' - 48)
                + (d' - 48) = n) by congruence.
  rewrite E.
  assert (a' = a) by lia. assert (b' = b) by lia.
  assert (c' = c) by lia. assert (d' = d) by lia. subst. reflexivity.
Qed.

Lemma YYYY_MM_DD_shape (s : jsstring) :
  is_YYYY_MM_DD s = true ->
  exists y1 y2 y3 y4 m1 m2 d1 d2,
    s = [y1; y2; y3; y4; 45; m1; m2; 45; d1; d2]
    /\ is_digit y1 = true /\ is_digit y2 = true /\ is_digit y3 = true
    /\ is_digit y4 = true /\ is_digit m1 = true /\ is_digit m2 = true
    /\ is_digit d1 = true /\ is_digit d2 = true.
Proof.
  unfold is_YYYY_MM_DD.
  destruct s as [| y1 [| y2 [| y3 [| y4 [| h1 [| m1 [| m2 [| h2 [| d1
                [| d2 [| x l]]]]]]]]]]]; try discriminate.
  rewrite !andb_true_iff, !Z.eqb_eq.
  intros (((((((((H1 & H2) & H3) & H4) & -> ) & H5) & H6) & -> ) & H7) & H8).
  exists y1, y2, y3, y4, m1, m2, d1, d2. auto 12.
Qed.

(** A date of the shape YYYY-MM-DD that parses comes back from
    [toISOString] as it was written. *)
Lemma date_only_round_trip (s : jsstring) (tv : Z) :
  is_YYYY_MM_DD s = true ->
  Date.parse_date_only s = Some (Some tv) ->
  iso_date (Some tv) = Some s.
Proof.
  intros Hs Hp.
  destruct (YYYY_MM_DD_shape s Hs)
    as (y1 & y2 & y3 & y4 & m1 & m2 & d1 & d2 & -> & Hy1 & Hy2 & Hy3 & Hy4
        & Hm1 & Hm2 & Hd1 & Hd2).
  pose proof (number_of_4 y1 y2 y3 y4 Hy1 Hy2 Hy3 Hy4) as Ny.
  pose proof (number_of_2 m1 m2 Hm1 Hm2) as Nm.
  pose proof (number_of_2 d1 d2 Hd1 Hd2) as Nd.
  set (yr := 1000 * (y1 - 48) + 100 * (y2 - 48) + 10 * (y3 - 48) + (y4 - 48))
    in *.
  set (mo := 10 * (m1 - 48) + (m2 - 48)) in *.
  set (dt := 10 * (d1 - 48) + (d2 - 48)) in *.
  pose proof (date_text y1 y2 y3 y4 m1 m2 d1 d2 yr mo dt []
                Hy1 Hy2 Hy3 Hy4 Hm1 Hm2 Hd1 Hd2 Ny Nm Nd) as (_ & _ & Hread).
  cbv zeta in Hread. rewrite Hread in Hp.
  destruct (Date.past_month_end yr mo dt); [discriminate |].
  destruct ((1 <=? mo) && (mo <=? 12) && (1 <=? dt)
            && (dt <=? Date.DaysInMonth yr (mo - 1))) eqn:Hc;
    [| discriminate].
  rewrite !andb_true_iff, !Z.leb_le in Hc.
  destruct Hc as (((Hmo1 & Hmo2) & Hdt1) & Hdt2).
  assert (Htv : Date.MakeDate (Date.MakeDay yr (mo - 1) dt) 0 = tv).
  { assert (E : Date.TimeClip
                  (Date.MakeDate (Date.MakeDay yr (mo - 1) dt) 0) = Some tv)
      by congruence.
    apply TimeClip_Some in E. tauto. }
  destruct (civil_of_MakeDay yr (mo - 1) dt ltac:(lia) ltac:(lia))
    as (Hyear & Hmonth & Hdate).
  cbv zeta in Hyear, Hmonth, Hdate. rewrite Htv in Hyear, Hmonth, Hdate.
  pose proof (is_digit_range _ Hy1). pose proof (is_digit_range _ Hy2).
  pose proof (is_digit_range _ Hy3). pose proof (is_digit_range _ Hy4).
  unfold iso_date, Date.toISOString, Date.year_string.
  rewrite Hyear, Hmonth, Hdate.
  replace ((0 <=? yr) && (yr <=? 9999)) with true
    by (symmetry; apply andb_true_iff; split; apply Z.leb_le;
        unfold yr; lia).
  replace (mo - 1 + 1) with mo by lia.
  rewrite (pad_4_of_digits y1 y2 y3 y4 yr Hy1 Hy2 Hy3 Hy4 Ny),
    (pad_2_of_digits m1 m2 mo Hm1 Hm2 Nm),
    (pad_2_of_digits d1 d2 dt Hd1 Hd2 Nd).
  change (js "T") with [code "T"%char]. change Date.hyphen with 45.
  cbn [app option_map].
  match goal with
  | |- context [split_0 _ (_ :: _ :: _ :: _ :: _ :: _ :: _ :: _ :: _ :: _
                             :: _ :: ?rest)] =>
      pose proof (date_text y1 y2 y3 y4 m1 m2 d1 d2 yr mo dt rest
                    Hy1 Hy2 Hy3 Hy4 Hm1 Hm2 Hd1 Hd2 Ny Nm Nd)
        as (Hcut & _)
  end.
  cbn [app] in Hcut. rewrite Hcut. reflexivity.
Qed.

(** A calendar date is read by every engine alike, as midnight UTC of
    its day. *)
Lemma calendar_date_parses (s : jsstring) :
  is_calendar_date s = true ->
  exists tv, Date.parse_date_only s = Some (Some tv).
Proof.
  unfold is_calendar_date. intros H. apply andb_true_iff in H.
  destruct H as [Hs Hc].
  destruct (YYYY_MM_DD_shape s Hs)
    as (y1 & y2 & y3 & y4 & m1 & m2 & d1 & d2 & -> & Hy1 & Hy2 & Hy3 & Hy4
        & Hm1 & Hm2 & Hd1 & Hd2).
  pose proof (number_of_4 y1 y2 y3 y4 Hy1 Hy2 Hy3 Hy4) as Ny.
  pose proof (number_of_2 m1 m2 Hm1 Hm2) as Nm.
  pose proof (number_of_2 d1 d2 Hd1 Hd2) as Nd.
  rewrite Ny, Nm, Nd in Hc.
  pose proof (is_digit_range _ Hy1). pose proof (is_digit_range _ Hy2).
  pose proof (is_digit_range _ Hy3). pose proof (is_digit_range _ Hy4).
  set (yr := 1000 * (y1 - 48) + 100 * (y2 - 48) + 10 * (y3 - 48) + (y4 - 48))
    in *.
  set (mo := 10 * (m1 - 48) + (m2 - 48)) in *.
  set (dt := 10 * (d1 - 48) + (d2 - 48)) in *.
  pose proof (date_text y1 y2 y3 y4 m1 m2 d1 d2 yr mo dt []
                Hy1 Hy2 Hy3 Hy4 Hm1 Hm2 Hd1 Hd2 Ny Nm Nd) as (_ & _ & Hread).
  cbv zeta in Hread. rewrite Hread, Hc.
  pose proof Hc as Hc'. rewrite !andb_true_iff, !Z.leb_le in Hc'.
  destruct Hc' as (((Hmo1 & Hmo2) & Hdt1) & Hdt2).
  replace (Date.past_month_end yr mo dt) with false
    by (symmetry; unfold Date.past_month_end;
        rewrite !andb_false_iff, Z.ltb_ge; tauto).
  assert (Hyr : 0 <= yr <= 9999) by (unfold yr; lia).
  pose proof (DayFromYear_mono 0 yr ltac:(lia)) as Hlo.
  pose proof (DayFromYear_mono yr 9999 ltac:(lia)) as Hhi.
  change (Date.DayFromYear 0) with (-719528) in Hlo.
  change (Date.DayFromYear 9999) with 2932532 in Hhi.
  unfold Date.DaysInMonth in Hdt2.
  destruct (month_of_day (Date.InLeapYear yr) (mo - 1) dt ltac:(lia))
    as [Hb _].
  { lia. }
  assert (Hrange : Z.abs (Date.MakeDate (Date.MakeDay yr (mo - 1) dt) 0)
                   <= 8640000000000000).
  { unfold Date.MakeDate, Date.MakeDay, Date.msPerDay.
    destruct (Date.InLeapYear yr); lia. }
  unfold Date.TimeClip. apply Z.leb_le in Hrange. rewrite Hrange.
  eexists. reflexivity.
Qed.

(** [X13] For a start date that is a calendar date written YYYY-MM-DD,
    as a date input writes it, the payload is built and its
    projectStartDate is that same string: reading it as a Date and
    cutting the ISO text at [T] changes nothing, whatever the engine and
    the time zone. *)
Theorem date_sent_is_date_entered (h : Host) (data : Data.t) :
  is_calendar_date (Data.projectStartDate data) = true ->
  exists payload,
    make_payload h data = Some payload
    /\ Data.projectStartDate payload = Data.projectStartDate data.
Proof.
  intros Hc. destruct (calendar_date_parses _ Hc) as [tv Hp].
  assert (Hs : is_YYYY_MM_DD (Data.projectStartDate data) = true).
  { unfold is_calendar_date in Hc. apply andb_true_iff in Hc. tauto. }
  pose proof (date_only_round_trip _ tv Hs Hp) as Hrt.
  unfold make_payload, Date.parse. rewrite Hp.
  unfold iso_date in Hrt.
  destruct (Date.toISOString (Some tv)) as [iso |]; [| discriminate].
  cbn [option_map] in Hrt. injection Hrt as Hrt.
  eexists. split; [reflexivity |]. exact Hrt.
Qed.

Lemma date_sent_is_date_entered_witness :
  exists payload,
    make_payload host_west jane_data = Some payload
    /\ Data.projectStartDate payload = js "2025-01-15".
Proof.
  exact (date_sent_is_date_entered host_west jane_data eq_refl).
Defined.

(** A day past the end of its month is no calendar date, and what is
    sent for it depends on the engine: one that rolls it over sends the
    second of March for the thirtieth of February, one that takes it for
    an invalid Date sends nothing. *)
Lemma day_past_month_end_depends_on_engine :
  is_YYYY_MM_DD (js "2025-02-30") = true
  /\ is_calendar_date (js "2025-02-30") = false
  /\ option_map Data.projectStartDate (make_payload host_rolling on_30_february)
     = Some (js "2025-03-02")
  /\ make_payload host_utc on_30_february = None.
Proof. repeat split; vm_compute; reflexivity. Qed.

(** [X14] The start date is compared with the start of the local day:
    the threshold is midnight local time, at or before the present
    moment and less than a day before it. *)
Theorem start_of_today_is_local_midnight (h : Host) (now u : Z) :
  start_of_today h now = Some u ->
  u <= now < u + Date.msPerDay
  /\ (u + LocalTZA h) mod Date.msPerDay = 0.
Proof.
  intros H. apply start_of_today_Some in H. subst u.
  unfold Date.Day, Date.msPerDay. split.
  - Z.div_mod_to_equations. lia.
  - replace ((now + LocalTZA h) / 86400000 * 86400000 - LocalTZA h
             + LocalTZA h)
      with ((now + LocalTZA h) / 86400000 * 86400000) by lia.
    apply Z.mod_mul. lia.
Qed.

Lemma start_of_today_is_local_midnight_witness :
  start_of_today host_west noon_2025_01_15 = Some 1736917200000
  /\ (1736917200000 <= noon_2025_01_15 < 1736917200000 + Date.msPerDay
      /\ (1736917200000 + LocalTZA host_west) mod Date.msPerDay = 0).
Proof.
  split; [reflexivity |].
  apply (start_of_today_is_local_midnight host_west noon_2025_01_15).
  reflexivity.
Defined.

(** [X15] A date-only start date is read as midnight UTC and compared
    with local midnight.  At UTC and east of it the field is accepted
    exactly when the date is the local day or a later one; west of UTC,
    exactly when it is a later day than the local one. *)
Theorem start_date_rule_by_zone (h : Host) (now D : Z) (date : jsstring) :
  - Date.msPerDay < LocalTZA h < Date.msPerDay ->
  Date.parse_date_only date = Some (Some (D * Date.msPerDay)) ->
  start_of_today h now <> None ->
  (0 <= LocalTZA h ->
   (success (projectStartDate_schema h now (VString date)) = true <->
    Date.Day (now + LocalTZA h) <= D))
  /\ (LocalTZA h < 0 ->
      (success (projectStartDate_schema h now (VString date)) = true <->
       Date.Day (now + LocalTZA h) < D)).
Proof.
  intros Htz Hp Hs.
  assert (Hlen : 1 <= JS.length date).
  { destruct date; [discriminate |]. unfold JS.length. simpl. lia. }
  assert (Hok : success (projectStartDate_schema h now (VString date)) = true
                <-> today_or_later h now date = true).
  { split.
    - intros H. apply success_OK in H. destruct H as [s H].
      apply projectStartDate_OK in H. destruct H as (E & _ & H).
      injection E as <-. exact H.
    - intros H. apply success_OK. exists date.
      apply projectStartDate_OK. auto. }
  pose proof (date_only_rule h now D date Htz Hp Hs) as Hrule.
  split; intros Hside; rewrite Hok, Hrule.
  - destruct (Z.leb_spec 0 (LocalTZA h)); [reflexivity | lia].
  - destruct (Z.leb_spec 0 (LocalTZA h)); [lia |]. split; lia.
Qed.

Lemma start_date_rule_by_zone_witness :
  Date.Day (noon_2025_01_15 + LocalTZA host_west) = 20103
  /\ (success (projectStartDate_schema host_west noon_2025_01_15
                 (VString (js "2025-01-15"))) = true <->
      Date.Day (noon_2025_01_15 + LocalTZA host_west) < 20103)
  /\ (success (projectStartDate_schema host_west noon_2025_01_15
                 (VString (js "2025-01-16"))) = true <->
      Date.Day (noon_2025_01_15 + LocalTZA host_west) < 20104).
Proof.
  split; [reflexivity |]. split.
  - apply (start_date_rule_by_zone host_west noon_2025_01_15 20103
             (js "2025-01-15")).
    + vm_compute. split; reflexivity.
    + reflexivity.
    + vm_compute. discriminate.
    + vm_compute. reflexivity.
  - apply (start_date_rule_by_zone host_west noon_2025_01_15 20104
             (js "2025-01-16")).
    + vm_compute. split; reflexivity.
    + reflexivity.
    + vm_compute. discriminate.
    + vm_compute. reflexivity.
Defined.
